(** * Request-path middleware of the chat API

    A shallow embedding of [src/api/middleware/rate_limit.py] (the
    per-client token bucket) and [src/api/middleware/logging.py] (the
    timing/outcome wrapper), with the properties of the design document
    stated against them.

    Numbers.  Python floats are read as exact rationals ([Q]); the integer
    [requests_per_minute] is embedded with [inject_Z].  Orders on [Q] are
    [Qle]/[Qlt], equality of values is [Qeq] ([==]).  Rounding is not
    modelled, so nothing below places a refilled count exactly at the
    threshold of admission or at the capacity.

    Effects.  [dispatch] runs in a state-and-exception monad over a [World]
    that holds the limiter's dictionary [self.tokens], the trace of requests
    handed to the downstream application, and the environment the
    application may touch (position in the sequence of clock readings, the
    logger's output).  [time.time()] returns the next reading of a clock
    given as a function [nat -> Q] over which no monotonicity is assumed. *)

From Stdlib Require Import ZArith QArith Qround Qminmax Lqa Lia DecimalString.
From stdpp Require Import gmap strings list.

Local Open Scope string_scope.

(** ** Requests, responses, exceptions *)

Record Request := mkRequest {
  method : string;          (* request.method *)
  url_path : string;        (* request.url.path *)
  client_host : string      (* request.client.host *)
}.

(** What is passed as [content=] or set as a header value. *)
Inductive Text :=
  | Lit (s : string)        (* a string literal *)
  | StrOf (x : Q).          (* str(x) of a float *)

Inductive Content :=
  | Body (b : string)
  | Dict (items : list (string * string)).

Record Response := mkResponse {
  content : Content;
  status_code : Z;
  headers : gmap string Text
}.

(** A Python exception: whether its class derives from [Exception] (what
    [except Exception] catches) and its [str(e)]. *)
Record exn := mkExn {
  derives_Exception : bool;
  exn_str : string
}.

Inductive Outcome (A : Type) :=
  | Returned (a : A)
  | Raised (e : exn).
Arguments Returned {A} a.
Arguments Raised {A} e.

(** ** The world *)

Inductive LogRecord :=
  | InfoRequest (m p : string)                          (* "Request: m p" *)
  | InfoResponse (m p : string) (status : Z) (t : Q)    (* "Response: m p - Status: .. - Time: ..s" *)
  | ErrorRecord (m p : string) (err : string) (t : Q).  (* "Error: m p - Error: .. - Time: ..s" *)

Record Env := mkEnv {
  ticks : nat;              (* clock readings consumed so far *)
  logs : list LogRecord     (* what the logger has emitted, oldest first *)
}.

Record World := mkWorld {
  tokens : gmap string (Q * Q);   (* self.tokens: IP -> (tokens, last_refill_time) *)
  served : list Request;          (* requests handed to the application, oldest first *)
  env : Env
}.

(** ** State and exception monad *)

Definition M (A : Type) : Type := World -> Outcome A * World.

Definition ret {A} (a : A) : M A := fun w => (Returned a, w).

Definition raise {A} (e : exn) : M A := fun w => (Raised e, w).

Definition bind {A B} (c : M A) (k : A -> M B) : M B :=
  fun w =>
    match c w with
    | (Returned a, w') => k a w'
    | (Raised e, w') => (Raised e, w')
    end.

Notation "x <- c ;; k" := (bind c (fun x => k))
  (at level 100, c at next level, right associativity).
Notation "c ;; k" := (bind c (fun _ => k))
  (at level 100, right associativity).

(** [try: body except Exception as e: handler e]. *)
Definition try_except {A} (body : M A) (handler : exn -> M A) : M A :=
  fun w =>
    match body w with
    | (Returned a, w') => (Returned a, w')
    | (Raised e, w') =>
        if derives_Exception e then handler e w' else (Raised e, w')
    end.

Definition set_env (e : Env) (w : World) : World :=
  {| tokens := tokens w; served := served w; env := e |}.

Definition set_tokens (d : gmap string (Q * Q)) (w : World) : World :=
  {| tokens := d; served := served w; env := env w |}.

(** [time.time()]: the reading at the current position, which advances. *)
Definition time_time (clock : nat -> Q) : M Q :=
  fun w =>
    (Returned (clock (ticks (env w))),
     set_env {| ticks := S (ticks (env w)); logs := logs (env w) |} w).

Definition logger_emit (r : LogRecord) : M unit :=
  fun w =>
    (Returned tt,
     set_env {| ticks := ticks (env w); logs := logs (env w) ++ [r] |} w).

(** [key not in self.tokens] *)
Definition tokens_missing (key : string) : M bool :=
  fun w => (Returned (bool_decide (tokens w !! key = None)), w).

(** [self.tokens[key] = value] *)
Definition tokens_setitem (key : string) (value : Q * Q) : M unit :=
  fun w => (Returned tt, set_tokens (<[key := value]> (tokens w)) w).

Definition KeyError (key : string) : exn :=
  {| derives_Exception := true; exn_str := "'" ++ key ++ "'" |}.

(** [self.tokens[key]] *)
Definition tokens_getitem (key : string) : M (Q * Q) :=
  fun w =>
    match tokens w !! key with
    | Some b => (Returned b, w)
    | None => (Raised (KeyError key), w)
    end.

(** A clock stopped at one instant: no time elapses between readings. *)
Definition stopped (t : Q) : nat -> Q := fun _ => t.

(** A clock that gives the listed readings, then stays at the last. *)
Definition readings (ts : list Q) : nat -> Q :=
  fun n => nth n ts (List.last ts 0%Q).

(** The application below the middleware stack: any function of the request
    and the environment that returns a response or raises.  It holds no
    reference to the limiter's dictionary. *)
Definition Handler : Type := Request -> Env -> Outcome Response * Env.

(** [call_next] of the innermost middleware: the invocation is recorded in
    [served], then the application runs. *)
Definition app (handler : Handler) (request : Request) : M Response :=
  fun w =>
    let (o, e') := handler request (env w) in
    (o, {| tokens := tokens w; served := served w ++ [request]; env := e' |}).

(** ** The response constructor

    [Response(content=.., status_code=.., headers=..)] is starlette's
    [Response], which renders its content when it is constructed: bytes
    are kept, and any other object is sent [.encode(charset)].  A string
    has that method; a dictionary does not, and the constructor raises
    [AttributeError]. *)

Definition AttributeError (msg : string) : exn :=
  {| derives_Exception := true; exn_str := msg |}.

Definition render_failure : exn :=
  AttributeError "'dict' object has no attribute 'encode'".

Definition Response_init (content : Content) (status_code : Z)
  (headers : gmap string Text) : M Response :=
  match content with
  | Body _ =>
      ret {| content := content; status_code := status_code; headers := headers |}
  | Dict _ => raise render_failure
  end.

(** ** Python arithmetic on the rationals *)

Definition Qlt_bool (x y : Q) : bool := negb (Qle_bool y x).

(** [min(a, b)]: the first argument unless the second is smaller. *)
Definition py_min (a b : Q) : Q := if Qlt_bool b a then b else a.

(** ** rate_limit.py *)

Module RateLimitMiddleware.

(** The attributes set in the constructor and never reassigned; the
    dictionary [self.tokens] is the [tokens] field of the world. *)
Record t := mk {
  requests_per_minute : Z;
  refill_rate : Q          (* tokens per second *)
}.

(** The least magnitude of an integer that does not convert to a float:
    [n / 60.0] converts [n] first and raises [OverflowError] from there on. *)
Definition float_limit : Z := (2 ^ 1024 - 2 ^ 970)%Z.

Definition OverflowError : exn :=
  {| derives_Exception := true; exn_str := "int too large to convert to float" |}.

Definition __init__ (requests_per_minute : Z) : M t :=
  fun w =>
    if (float_limit <=? Z.abs requests_per_minute)%Z then
      (Raised OverflowError, set_tokens ∅ w)
    else
      (Returned {| requests_per_minute := requests_per_minute;
                   refill_rate := (inject_Z requests_per_minute / 60)%Q |},
       set_tokens ∅ w).

Section Dispatch.
Variable clock : nat -> Q.
Variable self : t.

Definition dispatch (request : Request) (call_next : Request -> M Response)
  : M Response :=
  let client_ip := client_host request in
  (* Skip rate limiting for health check endpoint *)
  if bool_decide (url_path request = "/health") then call_next request
  else
    (* Initialize bucket for new client *)
    new_client <- tokens_missing client_ip ;;
    (if new_client : bool then
       t0 <- time_time clock ;;
       tokens_setitem client_ip (inject_Z (requests_per_minute self), t0)
     else ret tt) ;;
    (* Refill tokens based on time passed *)
    bucket <- tokens_getitem client_ip ;;
    let '(tokens, last_refill) := bucket in
    now <- time_time clock ;;
    let time_passed := (now - last_refill)%Q in
    let new_tokens :=
      py_min (inject_Z (requests_per_minute self))
             (tokens + time_passed * refill_rate self)%Q in
    (* Check if request can proceed *)
    if Qlt_bool new_tokens 1%Q then
      (* Return 429 Too Many Requests *)
      Response_init
        (Dict [("error", "Rate limit exceeded. Please try again later.")])
        429
        {[ "Retry-After" := Lit "60" ]}
    else
      (* Update token bucket and proceed with request *)
      tokens_setitem client_ip ((new_tokens - 1)%Q, now) ;;
      response <- call_next request ;;
      ret response.

(** Requests handled one after the other. *)
Fixpoint serve (call_next : Request -> M Response) (requests : list Request)
  (w : World) : list (Outcome Response) * World :=
  match requests with
  | [] => ([], w)
  | request :: rest =>
      let (o, w1) := dispatch request call_next w in
      let (os, w2) := serve call_next rest w1 in
      (o :: os, w2)
  end.

(** *** What one evaluation reads

    The values a non-bypass [dispatch] has in hand when it reaches the
    test [new_tokens < 1], as functions of the world it starts in. *)

(** The pair bound to [(tokens, last_refill)]: the stored bucket, or
    the one just created for a client not seen before. *)
Definition bucket_read (client_ip : string) (w : World) : Q * Q :=
  match tokens w !! client_ip with
  | Some b => b
  | None => (inject_Z (requests_per_minute self), clock (ticks (env w)))
  end.

(** The reading bound to [now]; creating a bucket takes one reading
    before it. *)
Definition now_read (client_ip : string) (w : World) : Q :=
  match tokens w !! client_ip with
  | Some _ => clock (ticks (env w))
  | None => clock (S (ticks (env w)))
  end.

(** The value bound to [time_passed]. *)
Definition time_passed_at (client_ip : string) (w : World) : Q :=
  (now_read client_ip w - snd (bucket_read client_ip w))%Q.

(** The value bound to [new_tokens]. *)
Definition new_tokens_at (client_ip : string) (w : World) : Q :=
  py_min (inject_Z (requests_per_minute self))
         (fst (bucket_read client_ip w)
          + time_passed_at client_ip w * refill_rate self)%Q.

(** The world at the test: the bucket exists, the readings are taken. *)
Definition world_at_test (client_ip : string) (w : World) : World :=
  match tokens w !! client_ip with
  | Some _ =>
      {| tokens := tokens w; served := served w;
         env := {| ticks := S (ticks (env w)); logs := logs (env w) |} |}
  | None =>
      {| tokens := <[client_ip := bucket_read client_ip w]> (tokens w);
         served := served w;
         env := {| ticks := S (S (ticks (env w))); logs := logs (env w) |} |}
  end.

(** The request is evaluated and refused. *)
Definition denies (request : Request) (w : World) : bool :=
  negb (bool_decide (url_path request = "/health"))
  && Qlt_bool (new_tokens_at (client_host request) w) 1%Q.

(** The request is evaluated and let through. *)
Definition admits (request : Request) (w : World) : bool :=
  negb (bool_decide (url_path request = "/health"))
  && negb (Qlt_bool (new_tokens_at (client_host request) w) 1%Q).

(** Every stored token count lies between zero and the capacity. *)
Definition store_ok (d : gmap string (Q * Q)) : Prop :=
  forall ip tk lr, d !! ip = Some (tk, lr) ->
    (0 <= tk)%Q /\ (tk <= inject_Z (requests_per_minute self))%Q.

End Dispatch.

(** The same requests handed straight to [call_next], with no limiter in
    front: what [serve] is compared with on bypass paths. *)
Fixpoint unlimited (call_next : Request -> M Response) (requests : list Request)
  (w : World) : list (Outcome Response) * World :=
  match requests with
  | [] => ([], w)
  | request :: rest =>
      let (o, w1) := call_next request w in
      let (os, w2) := unlimited call_next rest w1 in
      (o :: os, w2)
  end.

(** The delay a response announces: its [Retry-After] header read as a
    decimal number of seconds. *)
Definition retry_after (response : Response) : option Z :=
  match headers response !! "Retry-After" with
  | Some (Lit s) => option_map Z.of_uint (NilEmpty.uint_of_string s)
  | _ => None
  end.

End RateLimitMiddleware.

(** ** The algorithm as the design document words it

    Section 4.1, [evaluate(state, now, config)]: the formulas below follow
    the document, not the code, and are what the code is compared with. *)

Module Design.

Definition elapsed (now lastRefill : Q) : Q :=
  Qmax 0 (now - lastRefill).

Definition refilledTokens (capacity : Z) (refillRatePerSecond : Q)
  (state : Q * Q) (now : Q) : Q :=
  Qmin (inject_Z capacity)
       (fst state + elapsed now (snd state) * refillRatePerSecond).

Definition retryAfterSeconds (refilled refillRatePerSecond : Q) : Z :=
  Qceiling ((1 - refilled) / refillRatePerSecond).

(** The state written back on a Deny. *)
Definition deny_state (capacity : Z) (refillRatePerSecond : Q)
  (state : Q * Q) (now : Q) : Q * Q :=
  (refilledTokens capacity refillRatePerSecond state now, now).

End Design.

(** ** Sample data *)

Module Samples.

Definition fresh : World :=
  {| tokens := ∅; served := []; env := {| ticks := 0; logs := [] |} |}.

Definition ok : Response :=
  {| content := Body "ok"; status_code := 200; headers := ∅ |}.

(** An application that answers 200 and reads the clock once. *)
Definition answering : Handler :=
  fun _ e => (Returned ok, {| ticks := S (ticks e); logs := logs e |}).

Definition boom : exn :=
  {| derives_Exception := true; exn_str := "search backend unavailable" |}.

(** An application that always fails. *)
Definition failing : Handler := fun _ e => (Raised boom, e).

(** The task is cancelled while the application runs:
    [asyncio.CancelledError] derives from [BaseException] only. *)
Definition cancelled : exn :=
  {| derives_Exception := false; exn_str := "" |}.

Definition cancelling : Handler := fun _ e => (Raised cancelled, e).

Definition chat : Request := mkRequest "POST" "/api/chat" "10.0.0.1".
Definition health : Request := mkRequest "GET" "/health" "10.0.0.1".

(** The limiter as [__init__] builds it for a given capacity. *)
Definition limiter (requests_per_minute : Z) : RateLimitMiddleware.t :=
  {| RateLimitMiddleware.requests_per_minute := requests_per_minute;
     RateLimitMiddleware.refill_rate := (inject_Z requests_per_minute / 60)%Q |}.

(** Two requests a minute, both used by ["10.0.0.1"] at instant 0; the
    clock then reads 0 once more and 10 from there on. *)
Definition ten_later : nat -> Q := readings [0; 0; 0; 0; 0; 0; 10]%Q.
Definition spent : World :=
  (RateLimitMiddleware.serve ten_later (limiter 2) (app answering)
     [chat; chat] fresh).2.

(** One request a minute, used at instant 0; the next reading is 30. *)
Definition half_minute : nat -> Q := readings [0; 0; 0; 30]%Q.
Definition used_once : World :=
  (RateLimitMiddleware.serve half_minute (limiter 1) (app answering)
     [chat] fresh).2.

(** A clock that steps back by one second between two readings. *)
Definition stepping_back : nat -> Q := readings [1; 0]%Q.

(** Sixty requests a minute, one used at instant 100; the clock then
    reads 50. *)
Definition set_back : nat -> Q := readings [100; 100; 100; 50]%Q.
Definition used_at_100 : World :=
  (RateLimitMiddleware.serve set_back (limiter 60) (app answering)
     [chat] fresh).2.

(** A clock that advances one second with every reading. *)
Definition seconds : nat -> Q := fun n => inject_Z (Z.of_nat n).

End Samples.

(** ** logging.py *)

Module RequestLoggingMiddleware.

Section Dispatch.
Variable clock : nat -> Q.

Definition dispatch (request : Request) (call_next : Request -> M Response)
  : M Response :=
  start_time <- time_time clock ;;
  (* Log request *)
  logger_emit (InfoRequest (method request) (url_path request)) ;;
  (* Process request *)
  try_except
    (response <- call_next request ;;
     t1 <- time_time clock ;;
     let process_time := (t1 - start_time)%Q in
     (* Log response time and status *)
     logger_emit (InfoResponse (method request) (url_path request)
                               (status_code response) process_time) ;;
     (* Add timing header for debugging *)
     ret {| content := content response;
            status_code := status_code response;
            headers := <["X-Process-Time" := StrOf process_time]>
                         (headers response) |})
    (fun e =>
       t1 <- time_time clock ;;
       let process_time := (t1 - start_time)%Q in
       logger_emit (ErrorRecord (method request) (url_path request)
                                (exn_str e) process_time) ;;
       raise e).

(** The world in which [call_next] starts: the start time is read and
    the request line is logged. *)
Definition world_at_call (request : Request) (w : World) : World :=
  set_env {| ticks := S (ticks (env w));
             logs := logs (env w)
                     ++ [InfoRequest (method request) (url_path request)] |} w.

End Dispatch.

End RequestLoggingMiddleware.

(** ** Runs under a clock that never goes back *)

Module Accounting.

(** A clock that never goes back. *)
Definition nondecreasing (clock : nat -> Q) : Prop :=
  forall i j : nat, (i <= j)%nat -> (clock i <= clock j)%Q.

(** An application that does not rewind the sequence of readings. *)
Definition advancing (handler : Handler) : Prop :=
  forall request e, (ticks e <= ticks (handler request e).2)%nat.

(** Every stored time of last refill is a reading of the past: no later
    reading is below it. *)
Definition stamps_past (clock : nat -> Q) (w : World) : Prop :=
  forall ip tk lr j, tokens w !! ip = Some (tk, lr) ->
    (ticks (env w) <= j)%nat -> (lr <= clock j)%Q.

End Accounting.

(** ** main.py *)

Module Main.

(** The scalar values a search result or a completion carries. *)
Inductive value :=
  | VNone
  | VStr (s : string)
  | VNum (x : Q).

(** Truth value of a Python object. *)
Definition truthy (v : value) : bool :=
  match v with
  | VNone => false
  | VStr s => negb (bool_decide (s = ""))
  | VNum x => negb (Qeq_bool x 0)
  end.

(** [a or b] *)
Definition py_or (a b : value) : value := if truthy a then a else b.

(** [os.getenv(key)] and [os.getenv(key, fallback)] *)
Definition getenv (environ : gmap string string) (key : string) : option string :=
  environ !! key.

Definition getenv_or (environ : gmap string string) (key fallback : string) : string :=
  default fallback (environ !! key).

(** [not v] for an optional string: unset or empty. *)
Definition not_set (v : option string) : bool :=
  match v with
  | None => true
  | Some s => bool_decide (s = "")
  end.

Definition ValueError (msg : string) : exn :=
  {| derives_Exception := true; exn_str := msg |}.

Record SearchClient := mkSearchClient {
  endpoint : string;
  index_name : string;
  credential : string       (* AzureKeyCredential(key) *)
}.

Record AzureOpenAI := mkAzureOpenAI {
  azure_endpoint : string;
  api_key : string;
  api_version : string
}.

Definition get_search_client (environ : gmap string string) : Outcome SearchClient :=
  let search_endpoint := getenv environ "AZURE_SEARCH_ENDPOINT" in
  let search_index := getenv_or environ "AZURE_SEARCH_INDEX_NAME" "document-chunks" in
  let search_api_key := getenv environ "AZURE_SEARCH_API_KEY" in
  if not_set search_endpoint || not_set search_api_key then
    Raised (ValueError "Missing Azure Search configuration")
  else
    Returned {| endpoint := default "" search_endpoint;
                index_name := search_index;
                credential := default "" search_api_key |}.

Definition get_openai_client (environ : gmap string string) : Outcome AzureOpenAI :=
  let openai_endpoint := getenv environ "AZURE_OPENAI_ENDPOINT" in
  let openai_api_key := getenv environ "AZURE_OPENAI_API_KEY" in
  if not_set openai_endpoint || not_set openai_api_key then
    Raised (ValueError "Missing OpenAI configuration")
  else
    Returned {| azure_endpoint := default "" openai_endpoint;
                api_key := default "" openai_api_key;
                api_version := "2023-05-15" |}.

(** What [search_client.search(query, ...)] gives back: an iterator that
    yields [items] and then stops, or raises [failure] after them (a
    failure of the call itself has no items). *)
Record SearchResults := mkSearchResults {
  items : list (gmap string value);
  failure : option exn
}.

(** The dictionary appended for one result. *)
Record Document := mkDocument {
  doc_id : value;
  doc_content : value;
  doc_title : value;
  doc_filename : value;
  doc_score : value
}.

(** What exceptions leave [chat_completion]. *)
Inductive raised :=
  | HTTPException (status : Z) (detail : detail)
  | Py (e : exn)
with detail :=
  | Plain (s : string)
  | ErrorProcessingChat (cause : raised).   (* f"Error processing chat: {str(e)}" *)

Inductive LogLine :=
  | ErrorInSearch (e : exn)                     (* "Error in search: .." *)
  | FoundDocuments (n : nat) (query : string)   (* "Found n relevant documents for query: .." *)
  | DocumentLine (name score : value)           (* "Document: .. (Score: ..)" *)
  | ErrorChat (e : raised).                     (* "Error processing chat: .." *)

(** One iteration of the loop over the results; [result["id"]] raises
    when the key is missing, [result.get(k, d)] does not. *)
Definition document_of (result : gmap string value) : Outcome Document :=
  match result !! "id" with
  | None => Raised (KeyError "id")
  | Some id =>
      Returned {| doc_id := id;
                  doc_content := default (VStr "") (result !! "content");
                  doc_title := default (VStr "") (result !! "title");
                  doc_filename := default (VStr "") (result !! "filename");
                  doc_score := default (VNum 0) (result !! "@search.score") |}
  end.

(** The loop [for result in results: documents.append(..)]. *)
Fixpoint collect (results : list (gmap string value)) (failure : option exn)
  : Outcome (list Document) :=
  match results with
  | [] =>
      match failure with
      | None => Returned []
      | Some e => Raised e
      end
  | result :: rest =>
      match document_of result with
      | Raised e => Raised e
      | Returned document =>
          match collect rest failure with
          | Raised e => Raised e
          | Returned documents => Returned (document :: documents)
          end
      end
  end.

Definition perform_search (query : string) (search : string -> SearchResults)
  : Outcome (list Document) * list LogLine :=
  let results := search query in
  match collect (items results) (failure results) with
  | Returned documents => (Returned documents, [])
  | Raised e =>
      if derives_Exception e then (Returned [], [ErrorInSearch e])
      else (Raised e, [])
  end.

Record ConversationMessage := mkConversationMessage {
  msg_id : string;
  msg_type : string;
  msg_content : string;
  msg_timestamp : string;
  msg_attachments : option (list string);
  msg_quizData : option (gmap string value);
  msg_flashcardData : option (gmap string value)
}.

Record ChatRequest := mkChatRequest {
  message : string;
  conversation : list ConversationMessage;
  courseId : option string
}.

(** A message of the array sent to the model. *)
Record Message := mkMessage {
  role : string;
  text : string             (* the "content" entry *)
}.

Record RelevantDocument := mkRelevantDocument {
  rd_id : value;
  rd_name : value;
  rd_url : string;
  rd_relevanceScore : value
}.

Record ChatResponse := mkChatResponse {
  reply_id : string;
  reply_type : string;
  reply_content : value;
  reply_timestamp : Q;      (* the instant whose isoformat() it is *)
  relevantDocuments : list RelevantDocument
}.

Inductive Result (A : Type) :=
  | Ok (a : A)
  | Fail (r : raised).
Arguments Ok {A} a.
Arguments Fail {A} r.

(** [except Exception] catches it. *)
Definition is_Exception (r : raised) : bool :=
  match r with
  | HTTPException _ _ => true
  | Py e => derives_Exception e
  end.

Definition nl : string := String (Ascii.ascii_of_nat 10) EmptyString.

(** [int(x)]: truncation towards zero. *)
Definition py_int (x : Q) : Z := Z.quot (Qnum x) (Zpos (Qden x)).

Definition str_int (z : Z) : string := NilZero.string_of_int (Z.to_int z).

(** The loop over [request.conversation]. *)
Fixpoint previous_messages (conversation : list ConversationMessage) : list Message :=
  match conversation with
  | [] => []
  | msg :: rest =>
      if bool_decide (msg_type msg = "user") || bool_decide (msg_type msg = "ai") then
        {| role := if bool_decide (msg_type msg = "user") then "user" else "assistant";
           text := msg_content msg |} :: previous_messages rest
      else previous_messages rest
  end.

Section Chat.
(** The text of the system prompt up to [{document_context}]. *)
Variable system_prompt : string.
(** [str] of a number. *)
Variable str_num : Q -> string.

Definition py_str (v : value) : string :=
  match v with
  | VNone => "None"
  | VStr s => s
  | VNum x => str_num x
  end.

(** The lines added for the documents from position [i] on. *)
Fixpoint document_lines (i : nat) (documents : list Document) : string :=
  match documents with
  | [] => ""
  | doc :: rest =>
      "[Document " ++ str_int (Z.of_nat (i + 1)) ++ "] "
      ++ py_str (py_or (doc_title doc) (doc_filename doc)) ++ nl
      ++ py_str (doc_content doc) ++ nl ++ nl
      ++ document_lines (S i) rest
  end.

Definition document_context (relevant_documents : list Document) : string :=
  match relevant_documents with
  | [] => ""
  | _ => "### Reference Information:" ++ nl ++ nl
         ++ document_lines 0 relevant_documents
  end.

Definition build_messages (request : ChatRequest) (relevant_documents : list Document)
  : list Message :=
  ([ {| role := "system";
        text := system_prompt ++ document_context relevant_documents |} ]
   ++ previous_messages (conversation request)
   ++ [ {| role := "user"; text := message request |} ])%list.

Definition relevant_document (doc : Document) : RelevantDocument :=
  {| rd_id := doc_id doc;
     rd_name := py_or (doc_title doc) (doc_filename doc);
     rd_url := "#document-" ++ py_str (doc_id doc);
     rd_relevanceScore := doc_score doc |}.

(** The body of the [try]: [search] is the search client's method,
    [create] is [openai_client.chat.completions.create] returning the
    contents of the choices, [t_id] and [t_stamp] are the two readings of
    [datetime.now().timestamp()]. *)
Definition chat_completion_try (environ : gmap string string)
  (request : ChatRequest) (search : string -> SearchResults)
  (create : string -> list Message -> Outcome (list value))
  (t_id t_stamp : Q) : Result ChatResponse * list LogLine :=
  (* Check for required data *)
  if bool_decide (message request = "") then
    (Fail (HTTPException 400 (Plain "Message is required")), [])
  else
    let deployment_name :=
      getenv_or environ "AZURE_OPENAI_COMPLETION_DEPLOYMENT" "gpt-4o-mini" in
    match perform_search (message request) search with
    | (Raised e, l1) => (Fail (Py e), l1)
    | (Returned relevant_documents, l1) =>
        let l2 :=
          (l1 ++ [FoundDocuments (length relevant_documents) (message request)]
              ++ map (fun doc => DocumentLine (py_or (doc_title doc) (doc_filename doc))
                                              (doc_score doc))
                     relevant_documents)%list in
        let messages := build_messages request relevant_documents in
        match create deployment_name messages with
        | Raised e => (Fail (Py e), l2)
        | Returned choices =>
            let completion :=
              match choices with
              | c :: _ => c
              | [] => VStr "I'm sorry, I couldn't generate a response."
              end in
            (Ok {| reply_id := str_int (py_int (t_id * 1000));
                   reply_type := "ai";
                   reply_content := completion;
                   reply_timestamp := t_stamp;
                   relevantDocuments := map relevant_document relevant_documents |},
             l2)
        end
    end.

Definition chat_completion (environ : gmap string string)
  (request : ChatRequest) (search : string -> SearchResults)
  (create : string -> list Message -> Outcome (list value))
  (t_id t_stamp : Q) : Result ChatResponse * list LogLine :=
  match chat_completion_try environ request search create t_id t_stamp with
  | (Ok response, l) => (Ok response, l)
  | (Fail e, l) =>
      if is_Exception e then
        (Fail (HTTPException 500 (ErrorProcessingChat e)), (l ++ [ErrorChat e])%list)
      else (Fail e, l)
  end.

End Chat.

End Main.

(** ** Sample data for main.py *)

Module MainSamples.
Import Main.

Definition hit (id title : string) : gmap string value :=
  {[ "id" := VStr id; "title" := VStr title;
     "content" := VStr "Tokens refill at a fixed rate.";
     "@search.score" := VNum 1 ]}.

(** A result that lacks its key. *)
Definition no_id : gmap string value :=
  {[ "title" := VStr "untitled" ]}.

Definition search_two : string -> SearchResults :=
  fun _ => {| items := [hit "a" "Alpha"; hit "b" ""]; failure := None |}.

Definition search_malformed : string -> SearchResults :=
  fun _ => {| items := [hit "a" "Alpha"; no_id; hit "b" ""]; failure := None |}.

(** One result is yielded, then the service fails. *)
Definition search_down : string -> SearchResults :=
  fun _ => {| items := [hit "a" "Alpha"]; failure := Some Samples.boom |}.

Definition search_nothing : string -> SearchResults :=
  fun _ => {| items := []; failure := None |}.

Definition turn (type content : string) : ConversationMessage :=
  {| msg_id := "1"; msg_type := type; msg_content := content;
     msg_timestamp := "2024-01-01T00:00:00"; msg_attachments := None;
     msg_quizData := None; msg_flashcardData := None |}.

Definition ask : ChatRequest :=
  {| message := "What is a token bucket?";
     conversation := [turn "user" "Hello"; turn "quiz" "Q1";
                      turn "ai" "Hi, how can I help?"];
     courseId := None |}.

Definition blank : ChatRequest :=
  {| message := ""; conversation := []; courseId := None |}.

Definition create_ok : string -> list Message -> Outcome (list value) :=
  fun _ _ => Returned [VStr "A rate limiter."].

Definition create_down : string -> list Message -> Outcome (list value) :=
  fun _ _ => Raised Samples.boom.

Definition prompt : string := "You are an AI-powered educational assistant.".

Definition show : Q -> string := fun _ => "1.0".

End MainSamples.

(** ** Facts about the arithmetic *)

Lemma Qlt_bool_true (x y : Q) : Qlt_bool x y = true <-> (x < y)%Q.
Proof.
  unfold Qlt_bool. rewrite negb_true_iff. split.
  - intros H. apply Qnot_le_lt. intros Hle.
    apply Qle_bool_iff in Hle. congruence.
  - intros H. destruct (Qle_bool y x) eqn:E; [|reflexivity].
    apply Qle_bool_iff in E. exfalso. exact (Qlt_not_le _ _ H E).
Qed.

Lemma Qlt_bool_false (x y : Q) : Qlt_bool x y = false <-> (y <= x)%Q.
Proof.
  unfold Qlt_bool. rewrite negb_false_iff. apply Qle_bool_iff.
Qed.

Lemma py_min_le_l (a b : Q) : (py_min a b <= a)%Q.
Proof.
  unfold py_min. destruct (Qlt_bool b a) eqn:E.
  - apply Qlt_bool_true in E. lra.
  - lra.
Qed.

Lemma py_min_le_r (a b : Q) : (py_min a b <= b)%Q.
Proof.
  unfold py_min. destruct (Qlt_bool b a) eqn:E.
  - lra.
  - apply Qlt_bool_false in E. exact E.
Qed.

Lemma py_min_glb (a b c : Q) : (c <= a)%Q -> (c <= b)%Q -> (c <= py_min a b)%Q.
Proof. unfold py_min. destruct (Qlt_bool b a); auto. Qed.

Lemma py_min_Qmin (a b : Q) : py_min a b == Qmin a b.
Proof.
  unfold py_min. destruct (Qlt_bool b a) eqn:E.
  - apply Qlt_bool_true in E. rewrite Q.min_r; [reflexivity | lra].
  - apply Qlt_bool_false in E. rewrite Q.min_l; [reflexivity | exact E].
Qed.

(** ** The three paths of the limiter's [dispatch] *)

Module RateLimitSteps.
Import RateLimitMiddleware.

Section Steps.
Variable clock : nat -> Q.
Variable self : t.

Lemma dispatch_bypass (request : Request) (call_next : Request -> M Response) :
  url_path request = "/health" ->
  dispatch clock self request call_next = call_next request.
Proof.
  intros H. unfold dispatch. rewrite bool_decide_eq_true_2; auto.
Qed.

Lemma dispatch_denies (request : Request) (call_next : Request -> M Response)
  (w : World) :
  denies clock self request w = true ->
  dispatch clock self request call_next w
  = (Raised render_failure,
     world_at_test clock self (client_host request) w).
Proof.
  unfold denies. rewrite andb_true_iff, negb_true_iff.
  intros [Hp Hlt]. unfold dispatch. rewrite Hp.
  revert Hlt.
  unfold world_at_test, new_tokens_at, time_passed_at, bucket_read, now_read.
  unfold bind, tokens_missing, tokens_getitem, tokens_setitem, time_time, ret.
  destruct (tokens w !! client_host request) as [[tk lr]|] eqn:E; cbn.
  - rewrite E. cbn. intros ->. reflexivity.
  - rewrite lookup_insert_eq. cbn. intros ->. reflexivity.
Qed.

Lemma dispatch_admits (request : Request) (call_next : Request -> M Response)
  (w : World) :
  admits clock self request w = true ->
  dispatch clock self request call_next w
  = call_next request
      (set_tokens
         (<[client_host request :=
              ((new_tokens_at clock self (client_host request) w - 1)%Q,
               now_read clock (client_host request) w)]>
            (tokens (world_at_test clock self (client_host request) w)))
         (world_at_test clock self (client_host request) w)).
Proof.
  unfold admits. rewrite andb_true_iff, !negb_true_iff.
  intros [Hp Hge]. unfold dispatch. rewrite Hp.
  revert Hge.
  unfold world_at_test, new_tokens_at, time_passed_at, bucket_read, now_read.
  unfold bind, tokens_missing, tokens_getitem, tokens_setitem, time_time, ret.
  destruct (tokens w !! client_host request) as [[tk lr]|] eqn:E; cbn.
  - rewrite E. cbn. intros ->.
    destruct (call_next request _) as [[r|e] w']; reflexivity.
  - rewrite lookup_insert_eq. cbn. intros ->.
    destruct (call_next request _) as [[r|e] w']; reflexivity.
Qed.

(** Every request takes exactly one of the three paths. *)
Lemma three_paths (request : Request) (w : World) :
  url_path request = "/health"
  \/ denies clock self request w = true
  \/ admits clock self request w = true.
Proof.
  unfold denies, admits.
  destruct (bool_decide (url_path request = "/health")) eqn:E.
  - left. apply bool_decide_eq_true_1 in E. exact E.
  - right. cbn. destruct (Qlt_bool _ _); auto.
Qed.

End Steps.
End RateLimitSteps.

(** ** The token count stays within the bucket *)

Module RateLimitInvariant.
Import RateLimitMiddleware RateLimitSteps.

Lemma app_tokens (handler : Handler) (request : Request) (w : World) :
  tokens (app handler request w).2 = tokens w.
Proof. unfold app. destruct (handler request (env w)). reflexivity. Qed.

Lemma app_served (handler : Handler) (request : Request) (w : World) :
  served (app handler request w).2 = (served w ++ [request])%list.
Proof. unfold app. destruct (handler request (env w)). reflexivity. Qed.

Section Invariant.
Variable clock : nat -> Q.
Variable self : t.
Variable handler : Handler.
Hypothesis capacity_nonneg : (0 <= requests_per_minute self)%Z.

Lemma capacity_nonneg_Q : (0 <= inject_Z (requests_per_minute self))%Q.
Proof. change 0%Q with (inject_Z 0). rewrite <- Zle_Qle. exact capacity_nonneg. Qed.

(** Creating a bucket writes the capacity, which is within bounds. *)
Lemma world_at_test_ok (ip : string) (w : World) :
  store_ok self (tokens w) ->
  store_ok self (tokens (world_at_test clock self ip w)).
Proof.
  intros Hok. unfold world_at_test, bucket_read.
  destruct (tokens w !! ip) eqn:E; cbn; [exact Hok|].
  intros ip' tk lr. rewrite lookup_insert.
  case_decide as Hip.
  - intros [= <- <-]. split; [apply capacity_nonneg_Q | apply Qle_refl].
  - apply Hok.
Qed.

Lemma dispatch_ok (request : Request) (w : World) :
  store_ok self (tokens w) ->
  store_ok self (tokens (dispatch clock self request (app handler) w).2).
Proof.
  intros Hok.
  destruct (three_paths clock self request w) as [Hb | [Hd | Ha]].
  - rewrite dispatch_bypass by exact Hb. rewrite app_tokens. exact Hok.
  - rewrite dispatch_denies by exact Hd. cbn.
    apply world_at_test_ok, Hok.
  - rewrite dispatch_admits by exact Ha. rewrite app_tokens. cbn.
    unfold admits in Ha. apply andb_true_iff in Ha as [_ Hge].
    apply negb_true_iff, Qlt_bool_false in Hge.
    intros ip tk lr. rewrite lookup_insert.
    case_decide as Hip.
    + intros [= <- <-]. split; [lra|].
      pose proof (py_min_le_l (inject_Z (requests_per_minute self))
        (fst (bucket_read clock self (client_host request) w)
         + time_passed_at clock self (client_host request) w
           * refill_rate self)) as Hle.
      fold (new_tokens_at clock self (client_host request) w) in Hle. lra.
    + apply world_at_test_ok, Hok.
Qed.

Lemma serve_ok (requests : list Request) (w : World) :
  store_ok self (tokens w) ->
  store_ok self (tokens (serve clock self (app handler) requests w).2).
Proof.
  revert w. induction requests as [|request rest IH]; intros w Hok.
  - exact Hok.
  - cbn. pose proof (dispatch_ok request w Hok) as H1.
    destruct (dispatch clock self request (app handler) w) as [o w1].
    specialize (IH w1 H1).
    destruct (serve clock self (app handler) rest w1) as [os w2].
    exact IH.
Qed.

End Invariant.

(** C1.  From the construction of the limiter on, whatever requests are
    served (any clients, any paths, any application below) and whatever
    readings the clock gives, every stored bucket holds a token count
    between 0 and the capacity; so does the store at the moment a further
    request from any client is tested, which covers the bucket created
    for a client seen for the first time.  The capacity is taken
    non-negative, as a configuration has it. *)
Theorem tokens_within_capacity (clock : nat -> Q) (handler : Handler)
  (capacity : Z) (w0 w1 : World) (self : t) (requests : list Request) :
  (0 <= capacity)%Z ->
  __init__ capacity w0 = (Returned self, w1) ->
  let w := (serve clock self (app handler) requests w1).2 in
  forall (client ip : string) (tk lr : Q),
    (tokens w !! ip = Some (tk, lr)
     \/ tokens (world_at_test clock self client w) !! ip = Some (tk, lr)) ->
    (0 <= tk)%Q /\ (tk <= inject_Z capacity)%Q.
Proof.
  intros Hcap Hinit w client ip tk lr Hlk.
  unfold __init__ in Hinit.
  destruct (float_limit <=? Z.abs capacity)%Z; [discriminate|].
  injection Hinit as <- <-.
  set (self := {| requests_per_minute := capacity;
                  refill_rate := (inject_Z capacity / 60)%Q |}) in *.
  assert (Hok : store_ok self (tokens w)).
  { apply serve_ok; [exact Hcap|].
    intros ip' tk' lr'. cbn. rewrite lookup_empty. discriminate. }
  destruct Hlk as [Hlk | Hlk].
  - exact (Hok ip tk lr Hlk).
  - exact (world_at_test_ok clock self Hcap client w Hok ip tk lr Hlk).
Qed.

Lemma tokens_within_capacity_witness :
  tokens Samples.spent !! "10.0.0.1" = Some (0 # 60, 0)%Q
  /\ (0 <= 0 # 60)%Q /\ (0 # 60 <= inject_Z 2)%Q.
Proof.
  split; [vm_compute; reflexivity|].
  apply (tokens_within_capacity Samples.ten_later Samples.answering 2
           Samples.fresh Samples.fresh (Samples.limiter 2)
           [Samples.chat; Samples.chat] ltac:(lia) eq_refl
           "10.0.0.1" "10.0.0.1" (0 # 60)%Q 0%Q).
  left. vm_compute. reflexivity.
Defined.

End RateLimitInvariant.

(** ** A first burst *)

Module RateLimitBurst.
Import RateLimitMiddleware RateLimitSteps RateLimitInvariant.

Lemma serve_cons_world clock self call_next request rest w :
  (serve clock self call_next (request :: rest) w).2
  = (serve clock self call_next rest
       (dispatch clock self request call_next w).2).2.
Proof.
  cbn. destruct (dispatch clock self request call_next w) as [o w1]. cbn.
  destruct (serve clock self call_next rest w1). reflexivity.
Qed.

Lemma inject_nat_S (n : nat) :
  (inject_Z (Z.of_nat (S n)) == inject_Z (Z.of_nat n) + 1)%Q.
Proof.
  rewrite Nat2Z.inj_succ. unfold Z.succ. rewrite inject_Z_plus. reflexivity.
Qed.

Section Burst.
Variable instant : Q.
Variable self : t.
Variable handler : Handler.
Variable ip : string.

Let clock := stopped instant.

Lemma now_read_stopped (w : World) : now_read clock ip w = instant.
Proof. unfold now_read. destruct (tokens w !! ip); reflexivity. Qed.

(** With no time elapsed the refill adds nothing. *)
Lemma new_tokens_stopped (w : World) (n : Z) :
  fst (bucket_read clock self ip w) == inject_Z n ->
  snd (bucket_read clock self ip w) == instant ->
  (n <= requests_per_minute self)%Z ->
  new_tokens_at clock self ip w == inject_Z n.
Proof.
  intros Hfst Hsnd Hle. unfold new_tokens_at, time_passed_at.
  rewrite now_read_stopped.
  set (tk := fst (bucket_read clock self ip w)) in *.
  set (lr := snd (bucket_read clock self ip w)) in *.
  assert (Hz : (instant - lr) * refill_rate self == 0)
    by (rewrite Hsnd; ring).
  rewrite Zle_Qle in Hle.
  apply Qle_antisym.
  - eapply Qle_trans; [apply py_min_le_r|]. lra.
  - apply py_min_glb; lra.
Qed.

Lemma bucket_read_stored (w : World) (b : Q * Q) :
  tokens w !! ip = Some b -> bucket_read clock self ip w = b.
Proof. unfold bucket_read. intros ->. reflexivity. Qed.

(** A bucket holding at least as many tokens as there are requests lets
    them all through, one token each. *)
Lemma burst_served (requests : list Request) :
  forall (w : World) (n : nat),
    Forall (fun r => client_host r = ip /\ url_path r <> "/health") requests ->
    fst (bucket_read clock self ip w)
      == inject_Z (Z.of_nat (length requests + n)) ->
    snd (bucket_read clock self ip w) == instant ->
    (Z.of_nat (length requests + n) <= requests_per_minute self)%Z ->
    let w' := (serve clock self (app handler) requests w).2 in
    served w' = (served w ++ requests)%list
    /\ fst (bucket_read clock self ip w') == inject_Z (Z.of_nat n)
    /\ snd (bucket_read clock self ip w') == instant.
Proof.
  induction requests as [|request rest IH]; intros w n HF Hfst Hsnd Hle.
  - cbn. rewrite app_nil_r. cbn in Hfst. auto.
  - apply Forall_cons in HF as [[Hip Hpath] HF'].
    cbn [length Nat.add] in Hfst, Hle.
    pose proof (new_tokens_stopped w _ Hfst Hsnd Hle) as Hnt.
    rewrite inject_nat_S in Hnt.
    assert (Hpos : (0 <= inject_Z (Z.of_nat (length rest + n)))%Q).
    { change 0%Q with (inject_Z 0). rewrite <- Zle_Qle. lia. }
    assert (Ha : admits clock self request w = true).
    { unfold admits. rewrite andb_true_iff, !negb_true_iff. split.
      - apply bool_decide_eq_false_2. exact Hpath.
      - apply Qlt_bool_false. rewrite Hip. lra. }
    rewrite serve_cons_world, dispatch_admits by exact Ha.
    rewrite Hip.
    set (w1 := (app handler request _).2).
    assert (Hlk : tokens w1 !! ip
                  = Some ((new_tokens_at clock self ip w - 1)%Q,
                          now_read clock ip w)).
    { unfold w1. rewrite app_tokens. cbn. apply lookup_insert_eq. }
    assert (Hsv : served w1 = (served w ++ [request])%list).
    { unfold w1. rewrite app_served. cbn.
      unfold world_at_test. destruct (tokens w !! ip); reflexivity. }
    destruct (IH w1 n HF') as (H1 & H2 & H3).
    + rewrite (bucket_read_stored w1 _ Hlk). cbn. lra.
    + rewrite (bucket_read_stored w1 _ Hlk). cbn.
      rewrite now_read_stopped. reflexivity.
    + lia.
    + split; [|split]; try assumption.
      rewrite H1, Hsv, <- app_assoc. reflexivity.
Qed.

End Burst.

(** C5.  A client seen for the first time gets a bucket holding the full
    capacity.  If it then sends exactly [capacity] requests while the
    clock stands still, every one of them reaches the application; one
    more request at the same instant is refused: the test [new_tokens < 1]
    sends it down the refusal branch and it does not reach the
    application. *)
Theorem burst_admission (instant : Q) (self : t) (handler : Handler)
  (capacity : nat) (ip : string) (requests : list Request) (extra : Request)
  (w : World) :
  requests_per_minute self = Z.of_nat capacity ->
  tokens w !! ip = None ->
  length requests = capacity ->
  Forall (fun r => client_host r = ip /\ url_path r <> "/health")
         (requests ++ [extra]) ->
  tokens (world_at_test (stopped instant) self ip w) !! ip
    = Some (inject_Z (Z.of_nat capacity), instant)
  /\ let w' := (serve (stopped instant) self (app handler) requests w).2 in
     served w' = (served w ++ requests)%list
     /\ denies (stopped instant) self extra w' = true
     /\ served (dispatch (stopped instant) self extra (app handler) w').2
        = served w'.
Proof.
  intros Hcap Hnew Hlen HF.
  apply Forall_app in HF as [HF Hextra].
  inversion Hextra as [|? ? [Hip Hpath] _]; subst.
  split.
  { unfold world_at_test, bucket_read. rewrite Hnew. cbn.
    rewrite lookup_insert_eq, Hcap. reflexivity. }
  destruct (burst_served instant self handler (client_host extra)
              requests w 0%nat HF) as (H1 & H2 & H3).
  - unfold bucket_read. rewrite Hnew. cbn.
    rewrite Nat.add_0_r, Hcap. reflexivity.
  - unfold bucket_read. rewrite Hnew. reflexivity.
  - rewrite Nat.add_0_r, Hcap. lia.
  - cbn zeta. split; [exact H1|].
    set (w' := (serve (stopped instant) self (app handler) requests w).2) in *.
    assert (Hd : denies (stopped instant) self extra w' = true).
    { unfold denies. rewrite andb_true_iff, negb_true_iff. split.
      - apply bool_decide_eq_false_2. exact Hpath.
      - apply Qlt_bool_true.
        rewrite (new_tokens_stopped instant self (client_host extra) w' 0 H2 H3)
          by lia.
        reflexivity. }
    split; [exact Hd|].
    rewrite dispatch_denies by exact Hd. cbn.
    unfold world_at_test. destruct (tokens w' !! client_host extra); reflexivity.
Qed.

Lemma burst_admission_witness :
  tokens (world_at_test (stopped 0)
            {| requests_per_minute := 2; refill_rate := (inject_Z 2 / 60)%Q |}
            "10.0.0.1" Samples.fresh) !! "10.0.0.1"
    = Some (inject_Z (Z.of_nat 2), 0%Q)
  /\ let w' := (serve (stopped 0)
                  {| requests_per_minute := 2; refill_rate := (inject_Z 2 / 60)%Q |}
                  (app Samples.answering) [Samples.chat; Samples.chat]
                  Samples.fresh).2 in
     served w' = (served Samples.fresh ++ [Samples.chat; Samples.chat])%list
     /\ denies (stopped 0)
          {| requests_per_minute := 2; refill_rate := (inject_Z 2 / 60)%Q |}
          Samples.chat w' = true
     /\ served (dispatch (stopped 0)
           {| requests_per_minute := 2; refill_rate := (inject_Z 2 / 60)%Q |}
           Samples.chat (app Samples.answering) w').2
        = served w'.
Proof.
  apply (burst_admission 0
           {| requests_per_minute := 2; refill_rate := (inject_Z 2 / 60)%Q |}
           Samples.answering 2 "10.0.0.1" [Samples.chat; Samples.chat]
           Samples.chat Samples.fresh).
  - reflexivity.
  - reflexivity.
  - reflexivity.
  - repeat constructor; discriminate.
Defined.

End RateLimitBurst.

(** ** Bypass and refusal *)

Module RateLimitPaths.
Import RateLimitMiddleware RateLimitSteps RateLimitInvariant.

Lemma unlimited_app (handler : Handler) (requests : list Request) :
  forall w : World,
    tokens (unlimited (app handler) requests w).2 = tokens w
    /\ served (unlimited (app handler) requests w).2
       = (served w ++ requests)%list.
Proof.
  induction requests as [|request rest IH]; intros w; cbn.
  - rewrite app_nil_r. auto.
  - pose proof (app_tokens handler request w) as Ht.
    pose proof (app_served handler request w) as Hs.
    destruct (app handler request w) as [o w1]. cbn in Ht, Hs.
    destruct (IH w1) as [IHt IHs].
    destruct (unlimited (app handler) rest w1) as [os w2]. cbn in *.
    rewrite IHt, IHs, Ht, Hs, <- app_assoc. auto.
Qed.

(** C7.  Requests to the health-check path, however many, are handed to
    what lies below exactly as if no limiter were there: each gets the
    outcome the application gives it (none is refused by the limiter),
    each reaches the application, and the dictionary of buckets is the
    same before and after, so no bucket is created or changed. *)
Theorem bypass_guarantee (clock : nat -> Q) (self : t)
  (call_next : Request -> M Response) (handler : Handler)
  (requests : list Request) (w : World) :
  Forall (fun r => url_path r = "/health") requests ->
  serve clock self call_next requests w = unlimited call_next requests w
  /\ tokens (serve clock self (app handler) requests w).2 = tokens w
  /\ served (serve clock self (app handler) requests w).2
     = (served w ++ requests)%list.
Proof.
  intros HF.
  assert (Heq : forall cn w', serve clock self cn requests w'
                              = unlimited cn requests w').
  { intros cn. induction HF as [|request rest Hp _ IH]; intros w'.
    - reflexivity.
    - cbn. rewrite (dispatch_bypass clock self request cn Hp).
      destruct (cn request w') as [o w1]. rewrite IH. reflexivity. }
  split; [apply Heq|]. rewrite Heq. apply unlimited_app.
Qed.

Lemma bypass_guarantee_witness :
  serve (stopped 0) {| requests_per_minute := 1; refill_rate := (1 / 60)%Q |}
    (app Samples.failing) [Samples.health; Samples.health; Samples.health]
    Samples.fresh
  = unlimited (app Samples.failing)
      [Samples.health; Samples.health; Samples.health] Samples.fresh
  /\ tokens (serve (stopped 0)
               {| requests_per_minute := 1; refill_rate := (1 / 60)%Q |}
               (app Samples.answering)
               [Samples.health; Samples.health; Samples.health]
               Samples.fresh).2 = tokens Samples.fresh
  /\ served (serve (stopped 0)
               {| requests_per_minute := 1; refill_rate := (1 / 60)%Q |}
               (app Samples.answering)
               [Samples.health; Samples.health; Samples.health]
               Samples.fresh).2
     = (served Samples.fresh
        ++ [Samples.health; Samples.health; Samples.health])%list.
Proof.
  apply (bypass_guarantee (stopped 0)
           {| requests_per_minute := 1; refill_rate := (1 / 60)%Q |}
           (app Samples.failing) Samples.answering
           [Samples.health; Samples.health; Samples.health] Samples.fresh).
  repeat constructor.
Defined.

(** C6.  When the limiter refuses a request the application is not
    invoked: nothing is added to the requests it served or to the log,
    and the outcome and the world after are the same whatever [call_next]
    is.  But no response with status 429 comes back: building it from a
    dictionary fails in the constructor, and [dispatch] ends with that
    [AttributeError] instead of the refusal it meant to return. *)
Theorem deny_raises_instead_of_429 (clock : nat -> Q) (self : t)
  (handler : Handler) (request : Request) (w : World) :
  denies clock self request w = true ->
  exists w' : World,
    dispatch clock self request (app handler) w = (Raised render_failure, w')
    /\ (forall response : Response,
          (dispatch clock self request (app handler) w).1 <> Returned response)
    /\ served w' = served w
    /\ logs (env w') = logs (env w)
    /\ forall call_next : Request -> M Response,
         dispatch clock self request call_next w = (Raised render_failure, w').
Proof.
  intros Hd.
  exists (world_at_test clock self (client_host request) w).
  rewrite dispatch_denies by exact Hd.
  split; [reflexivity|]. split; [intros response; discriminate|].
  split; [|split].
  - unfold world_at_test. destruct (tokens w !! client_host request); reflexivity.
  - unfold world_at_test. destruct (tokens w !! client_host request); reflexivity.
  - intros call_next. apply dispatch_denies, Hd.
Qed.

Lemma deny_raises_instead_of_429_witness :
  exists w' : World,
    dispatch Samples.ten_later (Samples.limiter 2) Samples.chat
      (app Samples.answering) Samples.spent = (Raised render_failure, w')
    /\ (forall response : Response,
          (dispatch Samples.ten_later (Samples.limiter 2) Samples.chat
             (app Samples.answering) Samples.spent).1 <> Returned response)
    /\ served w' = served Samples.spent
    /\ logs (env w') = logs (env Samples.spent)
    /\ forall call_next : Request -> M Response,
         dispatch Samples.ten_later (Samples.limiter 2) Samples.chat
           call_next Samples.spent = (Raised render_failure, w').
Proof.
  apply (deny_raises_instead_of_429 Samples.ten_later (Samples.limiter 2)
           Samples.answering Samples.chat Samples.spent).
  vm_compute. reflexivity.
Defined.

End RateLimitPaths.

(** ** What a refusal reports and what it leaves behind *)

Module RateLimitDeny.
Import RateLimitMiddleware RateLimitSteps RateLimitInvariant.

Ltac differ := let H := fresh in intros H; vm_compute in H; discriminate.

(** The world after a refused request. *)
Lemma deny_world (clock : nat -> Q) (self : t)
  (call_next : Request -> M Response) (request : Request) (w : World) :
  denies clock self request w = true ->
  (dispatch clock self request call_next w).2
  = world_at_test clock self (client_host request) w.
Proof. intros Hd. rewrite dispatch_denies by exact Hd. reflexivity. Qed.

(** C3.  No retry delay reaches a refused caller.  Two requests a
    minute, both used at instant 0: a third request at that instant is
    refused, and the document's formula gives a delay of 30 seconds, at
    least 1.  The code means to send the fixed header value 60, but
    building the response fails and [dispatch] raises: no response comes
    back, so no delay is reported at all.  The same happens for a fourth
    request ten seconds later, where the formula gives 20. *)
Lemma no_retry_after_reported :
  let clock := Samples.ten_later in
  let self := Samples.limiter 2 in
  let third := dispatch clock self Samples.chat (app Samples.answering)
                 Samples.spent in
  let fourth := dispatch clock self Samples.chat (app Samples.answering)
                  third.2 in
  let reported (o : Outcome Response) : option Z :=
    match o with
    | Returned r => retry_after r
    | Raised _ => None
    end in
  denies clock self Samples.chat Samples.spent = true
  /\ denies clock self Samples.chat third.2 = true
  /\ (now_read clock "10.0.0.1" third.2
      - now_read clock "10.0.0.1" Samples.spent == 10)%Q
  /\ Design.retryAfterSeconds
       (new_tokens_at clock self "10.0.0.1" Samples.spent) (refill_rate self)
     = 30%Z
  /\ third.1 = Raised render_failure
  /\ reported third.1 = None
  /\ Design.retryAfterSeconds
       (new_tokens_at clock self "10.0.0.1" third.2) (refill_rate self)
     = 20%Z
  /\ fourth.1 = Raised render_failure
  /\ reported fourth.1 = None.
Proof.
  cbv zeta. repeat split; vm_compute; reflexivity.
Qed.

(** C2, as the document has it, fails.  One request a minute, used at
    instant 0; a request thirty seconds later is refused.  The document
    would store half a token and the time 30; the bucket still holds what
    it held, no token and the time 0. *)
Lemma deny_writes_nothing_back :
  let clock := Samples.half_minute in
  let self := Samples.limiter 1 in
  let state := bucket_read clock self "10.0.0.1" Samples.used_once in
  let now := now_read clock "10.0.0.1" Samples.used_once in
  let design := Design.deny_state (requests_per_minute self)
                  (refill_rate self) state now in
  let after := (dispatch clock self Samples.chat (app Samples.answering)
                  Samples.used_once).2 in
  denies clock self Samples.chat Samples.used_once = true
  /\ tokens Samples.used_once !! "10.0.0.1" = Some state
  /\ (fst design == 1 # 2)%Q /\ (snd design == 30)%Q
  /\ tokens after !! "10.0.0.1" = Some state
  /\ ~ (fst state == fst design)%Q
  /\ ~ (snd state == snd design)%Q.
Proof.
  cbv zeta. repeat split; try (vm_compute; reflexivity); differ.
Qed.

(** C2, amended.  A refusal writes nothing back: after it the client's
    bucket is the pair [(tokens, last_refill)] the evaluation read, which
    for a client that had a bucket is the stored one.  The refused
    attempt consumes no token and does not advance the refill clock. *)
Theorem deny_keeps_bucket (clock : nat -> Q) (self : t)
  (call_next : Request -> M Response) (request : Request) (w : World) :
  denies clock self request w = true ->
  let after := (dispatch clock self request call_next w).2 in
  tokens after !! client_host request
    = Some (bucket_read clock self (client_host request) w)
  /\ forall b, tokens w !! client_host request = Some b ->
               tokens after !! client_host request = Some b.
Proof.
  intros Hd after. unfold after. rewrite deny_world by exact Hd.
  unfold world_at_test, bucket_read.
  destruct (tokens w !! client_host request) as [b|] eqn:E; cbn.
  - split; [exact E | intros b' [= <-]; exact E].
  - split; [apply lookup_insert_eq | discriminate].
Qed.

Lemma deny_keeps_bucket_witness :
  let after := (dispatch Samples.half_minute (Samples.limiter 1) Samples.chat
                  (app Samples.answering) Samples.used_once).2 in
  tokens after !! client_host Samples.chat
    = Some (bucket_read Samples.half_minute (Samples.limiter 1)
              (client_host Samples.chat) Samples.used_once)
  /\ forall b, tokens Samples.used_once !! client_host Samples.chat = Some b ->
               tokens after !! client_host Samples.chat = Some b.
Proof.
  apply (deny_keeps_bucket Samples.half_minute (Samples.limiter 1)
           (app Samples.answering) Samples.chat Samples.used_once).
  vm_compute. reflexivity.
Defined.

(** C10, as stated, fails for a client seen for the first time: its
    bucket is created before the test, so a refused first request leaves
    a bucket behind.  With one request a minute this happens when the
    clock steps back between the reading taken at creation and the one
    taken as [now]; with a capacity of zero it happens on every first
    request. *)
Lemma deny_may_create_bucket :
  let after_step := (dispatch Samples.stepping_back (Samples.limiter 1)
                       Samples.chat (app Samples.answering) Samples.fresh).2 in
  let after_zero := (dispatch (stopped 0) (Samples.limiter 0)
                       Samples.chat (app Samples.answering) Samples.fresh).2 in
  (denies Samples.stepping_back (Samples.limiter 1) Samples.chat Samples.fresh
     = true
   /\ tokens Samples.fresh !! "10.0.0.1" = None
   /\ tokens after_step !! "10.0.0.1" = Some (1%Q, 1%Q)
   /\ tokens after_step <> tokens Samples.fresh)
  /\ (denies (stopped 0) (Samples.limiter 0) Samples.chat Samples.fresh = true
      /\ tokens after_zero !! "10.0.0.1" = Some (0%Q, 0%Q)
      /\ tokens after_zero <> tokens Samples.fresh).
Proof.
  cbv zeta. repeat split; try (vm_compute; reflexivity).
  - intros H. apply (f_equal (fun d => d !! "10.0.0.1")) in H.
    vm_compute in H. discriminate.
  - intros H. apply (f_equal (fun d => d !! "10.0.0.1")) in H.
    vm_compute in H. discriminate.
Qed.

(** C10, amended.  A refusal modifies no bucket that exists: every
    client's stored pair is the same after as before, and nothing computed
    by the refused evaluation is written.  When the refused client already
    had a bucket the dictionary is unchanged altogether; when it had none,
    the dictionary gains exactly the bucket created for it, the capacity
    and the reading taken at creation. *)
Theorem deny_frame (clock : nat -> Q) (self : t)
  (call_next : Request -> M Response) (request : Request) (w : World) :
  denies clock self request w = true ->
  let after := (dispatch clock self request call_next w).2 in
  (forall ip b, tokens w !! ip = Some b -> tokens after !! ip = Some b)
  /\ (is_Some (tokens w !! client_host request) -> tokens after = tokens w)
  /\ (tokens w !! client_host request = None ->
      tokens after
      = <[client_host request :=
            (inject_Z (requests_per_minute self), clock (ticks (env w)))]>
          (tokens w)).
Proof.
  intros Hd after. unfold after. rewrite deny_world by exact Hd.
  unfold world_at_test, bucket_read.
  destruct (tokens w !! client_host request) as [b|] eqn:E; cbn.
  - split; [auto|]. split; [reflexivity | discriminate].
  - split; [|split].
    + intros ip b Hlk. rewrite lookup_insert_ne; [exact Hlk|].
      intros <-. congruence.
    + intros [b Hb]. discriminate.
    + reflexivity.
Qed.

Lemma deny_frame_witness :
  let after := (dispatch Samples.ten_later (Samples.limiter 2) Samples.chat
                  (app Samples.answering) Samples.spent).2 in
  (forall ip b, tokens Samples.spent !! ip = Some b -> tokens after !! ip = Some b)
  /\ (is_Some (tokens Samples.spent !! client_host Samples.chat) ->
      tokens after = tokens Samples.spent)
  /\ (tokens Samples.spent !! client_host Samples.chat = None ->
      tokens after
      = <[client_host Samples.chat :=
            (inject_Z (requests_per_minute (Samples.limiter 2)),
             Samples.ten_later (ticks (env Samples.spent)))]>
          (tokens Samples.spent)).
Proof.
  apply (deny_frame Samples.ten_later (Samples.limiter 2)
           (app Samples.answering) Samples.chat Samples.spent).
  vm_compute. reflexivity.
Defined.

End RateLimitDeny.

(** ** Clock readings that go back *)

Module RateLimitClock.
Import RateLimitMiddleware RateLimitSteps RateLimitInvariant.

(** C4, as the document has it, fails.  Sixty requests a minute, one
    used at instant 100, and the clock then reads 50.  The code takes the
    elapsed time as -50 where the document clamps it to 0, refills to 9
    tokens where the document has 59, lets the request through and stores
    50 as the time of the last refill, which was 100. *)
Lemma elapsed_not_clamped :
  let clock := Samples.set_back in
  let self := Samples.limiter 60 in
  let w := Samples.used_at_100 in
  let state := bucket_read clock self "10.0.0.1" w in
  let now := now_read clock "10.0.0.1" w in
  let after := (dispatch clock self Samples.chat (app Samples.answering) w).2 in
  tokens w !! "10.0.0.1" = Some state
  /\ (fst state == 59)%Q /\ (snd state == 100)%Q /\ (now == 50)%Q
  /\ (time_passed_at clock self "10.0.0.1" w == -50)%Q
  /\ (Design.elapsed now (snd state) == 0)%Q
  /\ ~ (time_passed_at clock self "10.0.0.1" w
        == Design.elapsed now (snd state))%Q
  /\ (new_tokens_at clock self "10.0.0.1" w == 9)%Q
  /\ (Design.refilledTokens (requests_per_minute self) (refill_rate self)
        state now == 59)%Q
  /\ admits clock self Samples.chat w = true
  /\ exists tk lr, tokens after !! "10.0.0.1" = Some (tk, lr)
                   /\ (tk == 8)%Q /\ (lr == 50)%Q /\ (lr < snd state)%Q.
Proof.
  cbv zeta. repeat split; try (vm_compute; reflexivity).
  - intros H. vm_compute in H. discriminate.
  - eexists _, _. repeat split; vm_compute; reflexivity.
Qed.

(** C4, amended.  The elapsed time is [now - last_refill], not clamped at
    zero.  An admitted evaluation stores the refilled count of that
    elapsed time less one, and stores [now] as the time of the last
    refill, also when [now] is earlier than the time stored; a refused
    one leaves the bucket as it was read.  When [now] is at or before the
    stored time and the refill rate is not negative, the refilled count is
    at most the stored count: no tokens are minted. *)
Theorem refill_unclamped (clock : nat -> Q) (self : t) (handler : Handler)
  (request : Request) (w : World) :
  url_path request <> "/health" ->
  let ip := client_host request in
  let state := bucket_read clock self ip w in
  let now := now_read clock ip w in
  let refilled :=
    py_min (inject_Z (requests_per_minute self))
           (fst state + (now - snd state) * refill_rate self)%Q in
  let after := (dispatch clock self request (app handler) w).2 in
  (tokens after !! ip = Some ((refilled - 1)%Q, now) /\ (1 <= refilled)%Q
   \/ tokens after !! ip = Some state /\ (refilled < 1)%Q)
  /\ ((now <= snd state)%Q -> (0 <= refill_rate self)%Q ->
      (refilled <= fst state)%Q).
Proof.
  intros Hpath ip state now refilled after. split.
  - destruct (three_paths clock self request w) as [Hb | [Hd | Ha]].
    + contradiction.
    + right. unfold after. rewrite dispatch_denies by exact Hd. cbn. split.
      * unfold world_at_test, state, bucket_read, ip.
        destruct (tokens w !! client_host request) eqn:E; cbn;
          [exact E | apply lookup_insert_eq].
      * unfold denies in Hd. apply andb_true_iff in Hd as [_ Hlt].
        apply Qlt_bool_true in Hlt. exact Hlt.
    + left. unfold after. rewrite dispatch_admits by exact Ha.
      rewrite app_tokens. cbn. split.
      * apply lookup_insert_eq.
      * unfold admits in Ha. apply andb_true_iff in Ha as [_ Hge].
        apply negb_true_iff, Qlt_bool_false in Hge. exact Hge.
  - intros Hback Hrate.
    eapply Qle_trans; [apply py_min_le_r|].
    assert (H : (0 <= (snd state - now) * refill_rate self)%Q)
      by (apply Qmult_le_0_compat; lra).
    lra.
Qed.

Lemma refill_unclamped_witness :
  let clock := Samples.set_back in
  let self := Samples.limiter 60 in
  let w := Samples.used_at_100 in
  let ip := client_host Samples.chat in
  let state := bucket_read clock self ip w in
  let now := now_read clock ip w in
  let refilled :=
    py_min (inject_Z (requests_per_minute self))
           (fst state + (now - snd state) * refill_rate self)%Q in
  let after := (dispatch clock self Samples.chat (app Samples.answering) w).2 in
  (tokens after !! ip = Some ((refilled - 1)%Q, now) /\ (1 <= refilled)%Q
   \/ tokens after !! ip = Some state /\ (refilled < 1)%Q)
  /\ ((now <= snd state)%Q -> (0 <= refill_rate self)%Q ->
      (refilled <= fst state)%Q).
Proof.
  apply (refill_unclamped Samples.set_back (Samples.limiter 60)
           Samples.answering Samples.chat Samples.used_at_100).
  discriminate.
Defined.

End RateLimitClock.

(** ** Configurations that admit nothing *)

Module RateLimitConfig.
Import RateLimitMiddleware RateLimitSteps.

(** C8, as the document has it, fails: the constructor checks nothing.
    With a capacity of zero, or of minus five, it returns a limiter and
    raises no error. *)
Lemma invalid_configuration_accepted :
  ((__init__ 0 Samples.fresh).1 = Returned (Samples.limiter 0)
   /\ forall e, (__init__ 0 Samples.fresh).1 <> Raised e)
  /\ ((__init__ (-5) Samples.fresh).1 = Returned (Samples.limiter (-5))
      /\ (refill_rate (Samples.limiter (-5)) < 0)%Q
      /\ forall e, (__init__ (-5) Samples.fresh).1 <> Raised e).
Proof.
  repeat split; try reflexivity; intros e H; discriminate H.
Qed.

(** C8, amended.  Construction checks nothing: it succeeds also for a
    capacity that is zero or negative (and so a refill rate that is zero
    or negative), as long as the number converts to a float.  Such a
    configuration shows at request time: every request that is not to
    the health-check path is refused and never reaches what lies below,
    whatever the client, the clock and the buckets stored. *)
Theorem invalid_configuration_refuses (requests_per_minute : Z) (w0 : World)
  (clock : nat -> Q) (call_next : Request -> M Response)
  (request : Request) (w : World) :
  (- float_limit < requests_per_minute)%Z ->
  (requests_per_minute <= 0)%Z ->
  url_path request <> "/health" ->
  exists (self : t) (w1 : World),
    __init__ requests_per_minute w0 = (Returned self, w1)
    /\ denies clock self request w = true
    /\ served (dispatch clock self request call_next w).2 = served w
    /\ forall other : Request -> M Response,
         dispatch clock self request other w
         = dispatch clock self request call_next w.
Proof.
  intros Hlow Hcap Hpath. unfold __init__.
  destruct (float_limit <=? Z.abs requests_per_minute)%Z eqn:E.
  { apply Z.leb_le in E. lia. }
  eexists _, _. split; [reflexivity|].
  set (self := {| RateLimitMiddleware.requests_per_minute := requests_per_minute;
                  refill_rate := (inject_Z requests_per_minute / 60)%Q |}).
  assert (Hd : denies clock self request w = true).
  { unfold denies. rewrite andb_true_iff, negb_true_iff. split.
    - apply bool_decide_eq_false_2. exact Hpath.
    - apply Qlt_bool_true. unfold new_tokens_at.
      eapply Qle_lt_trans; [apply py_min_le_l|]. cbn.
      rewrite Zle_Qle in Hcap. change (inject_Z 0) with 0%Q in Hcap. lra. }
  split; [exact Hd|]. split.
  - rewrite dispatch_denies by exact Hd. cbn.
    unfold world_at_test. destruct (tokens w !! client_host request); reflexivity.
  - intros other. rewrite !dispatch_denies by exact Hd. reflexivity.
Qed.

Lemma invalid_configuration_refuses_witness :
  exists (self : t) (w1 : World),
    __init__ 0 Samples.fresh = (Returned self, w1)
    /\ denies (stopped 0) self Samples.chat Samples.fresh = true
    /\ served (dispatch (stopped 0) self Samples.chat (app Samples.answering)
                 Samples.fresh).2 = served Samples.fresh
    /\ forall other : Request -> M Response,
         dispatch (stopped 0) self Samples.chat other Samples.fresh
         = dispatch (stopped 0) self Samples.chat (app Samples.answering)
             Samples.fresh.
Proof.
  apply (invalid_configuration_refuses 0 Samples.fresh (stopped 0)
           (app Samples.answering) Samples.chat Samples.fresh).
  - reflexivity.
  - lia.
  - discriminate.
Defined.

End RateLimitConfig.

(** ** The logging wrapper lets failures through *)

Module LoggingFacts.
Import RequestLoggingMiddleware.

Section Failure.
Variable clock : nat -> Q.
Variable request : Request.
Variable call_next : Request -> M Response.

(** Up to the call: one reading, one log line. *)
Lemma dispatch_unfold (w : World) :
  dispatch clock request call_next w
  = match call_next request (world_at_call request w) with
    | (Returned response, w1) =>
        let process_time := (clock (ticks (env w1)) - clock (ticks (env w)))%Q in
        (Returned {| content := content response;
                     status_code := status_code response;
                     headers := <["X-Process-Time" := StrOf process_time]>
                                  (headers response) |},
         set_env {| ticks := S (ticks (env w1));
                    logs := logs (env w1)
                            ++ [InfoResponse (method request) (url_path request)
                                  (status_code response) process_time] |} w1)
    | (Raised e, w1) =>
        if derives_Exception e then
          (Raised e,
           set_env {| ticks := S (ticks (env w1));
                      logs := logs (env w1)
                              ++ [ErrorRecord (method request) (url_path request)
                                    (exn_str e)
                                    (clock (ticks (env w1)) - clock (ticks (env w)))%Q] |}
             w1)
        else (Raised e, w1)
    end.
Proof.
  unfold dispatch, bind, try_except, time_time, logger_emit, ret, raise,
    world_at_call.
  cbn. destruct (call_next request _) as [[response|e] w1]; cbn.
  - reflexivity.
  - destruct (derives_Exception e); reflexivity.
Qed.

End Failure.

(** C9, as stated, fails for exceptions outside [Exception].  When the
    task is cancelled while the application runs, the wrapper lets the
    cancellation through unchanged but records nothing about it: the log
    holds the request line only, no failure and no duration. *)
Lemma cancellation_not_recorded :
  let result := dispatch (readings [0; 3]%Q) Samples.chat
                  (app Samples.cancelling) Samples.fresh in
  derives_Exception Samples.cancelled = false
  /\ result.1 = Raised Samples.cancelled
  /\ logs (env result.2) = [InfoRequest "POST" "/api/chat"]
  /\ ~ exists err t, In (ErrorRecord "POST" "/api/chat" err t) (logs (env result.2)).
Proof.
  cbv zeta. repeat split; try reflexivity.
  intros (err & t & [H | []]). discriminate H.
Qed.

(** C9, amended.  When what lies below raises, the wrapper raises the very
    same exception: no exception is swallowed or turned into a response.
    For a failure (an exception deriving from [Exception], what the handler
    clause catches) it first emits one error record carrying the method,
    the path, the text of the exception and the time elapsed since the
    start reading, and changes nothing else; an exception outside
    [Exception] passes through untouched and unrecorded. *)
Theorem downstream_failure_propagates (clock : nat -> Q) (request : Request)
  (call_next : Request -> M Response) (w w1 : World) (e : exn) :
  call_next request (world_at_call request w) = (Raised e, w1) ->
  let result := dispatch clock request call_next w in
  result.1 = Raised e
  /\ (derives_Exception e = true ->
      logs (env result.2)
      = (logs (env w1)
         ++ [ErrorRecord (method request) (url_path request) (exn_str e)
               (clock (ticks (env w1)) - clock (ticks (env w)))%Q])%list
      /\ tokens result.2 = tokens w1
      /\ served result.2 = served w1)
  /\ (derives_Exception e = false -> result.2 = w1).
Proof.
  intros Hcall result. unfold result.
  rewrite dispatch_unfold, Hcall.
  destruct (derives_Exception e); cbn.
  - split; [reflexivity|]. split; [auto | discriminate].
  - split; [reflexivity|]. split; [discriminate | reflexivity].
Qed.

Lemma downstream_failure_propagates_witness :
  let result := dispatch (readings [0; 3]%Q) Samples.chat
                  (app Samples.failing) Samples.fresh in
  result.1 = Raised Samples.boom
  /\ (derives_Exception Samples.boom = true ->
      logs (env result.2)
      = (logs (env (app Samples.failing Samples.chat
                      (world_at_call Samples.chat Samples.fresh)).2)
         ++ [ErrorRecord (method Samples.chat) (url_path Samples.chat)
               (exn_str Samples.boom)
               (readings [0; 3]%Q
                  (ticks (env (app Samples.failing Samples.chat
                                 (world_at_call Samples.chat Samples.fresh)).2))
                - readings [0; 3]%Q (ticks (env Samples.fresh)))%Q])%list
      /\ tokens result.2
         = tokens (app Samples.failing Samples.chat
                     (world_at_call Samples.chat Samples.fresh)).2
      /\ served result.2
         = served (app Samples.failing Samples.chat
                     (world_at_call Samples.chat Samples.fresh)).2)
  /\ (derives_Exception Samples.boom = false ->
      result.2 = (app Samples.failing Samples.chat
                    (world_at_call Samples.chat Samples.fresh)).2).
Proof.
  apply (downstream_failure_propagates (readings [0; 3]%Q) Samples.chat
           (app Samples.failing) Samples.fresh
           (app Samples.failing Samples.chat
              (world_at_call Samples.chat Samples.fresh)).2 Samples.boom).
  reflexivity.
Defined.

(** The record of the sample failure, spelled out: three seconds. *)
Example failing_request_logged :
  let result := dispatch (readings [0; 3]%Q) Samples.chat
                  (app Samples.failing) Samples.fresh in
  result.1 = Raised Samples.boom
  /\ logs (env result.2)
     = [InfoRequest "POST" "/api/chat";
        ErrorRecord "POST" "/api/chat" "search backend unavailable" (3 - 0)%Q].
Proof. split; reflexivity. Qed.

End LoggingFacts.

(** ** Which buckets a request can touch *)

Module RateLimitStore.
Import RateLimitMiddleware RateLimitSteps RateLimitInvariant.

Section Store.
Variable clock : nat -> Q.
Variable self : t.
Variable handler : Handler.

Lemma world_at_test_tokens (ip : string) (w : World) :
  tokens (world_at_test clock self ip w)
  = <[ip := bucket_read clock self ip w]> (tokens w).
Proof.
  unfold world_at_test, bucket_read.
  destruct (tokens w !! ip) as [b|] eqn:E; cbn; [|reflexivity].
  symmetry. apply insert_id. exact E.
Qed.

Lemma world_at_test_served (ip : string) (w : World) :
  served (world_at_test clock self ip w) = served w.
Proof. unfold world_at_test. destruct (tokens w !! ip); reflexivity. Qed.

(** The dictionary after one request: untouched on the bypass path, and
    otherwise changed at the key of the requesting client only. *)
Lemma dispatch_tokens (request : Request) (w : World) :
  (url_path request = "/health"
   /\ tokens (dispatch clock self request (app handler) w).2 = tokens w)
  \/ (url_path request <> "/health"
      /\ exists b, tokens (dispatch clock self request (app handler) w).2
                   = <[client_host request := b]> (tokens w)).
Proof.
  destruct (three_paths clock self request w) as [Hb | [Hd | Ha]].
  - left. split; [exact Hb|]. rewrite dispatch_bypass by exact Hb.
    apply app_tokens.
  - right. split.
    + unfold denies in Hd. apply andb_true_iff in Hd as [Hp _].
      apply negb_true_iff, bool_decide_eq_false_1 in Hp. exact Hp.
    + rewrite dispatch_denies by exact Hd. cbn. eexists.
      apply world_at_test_tokens.
  - right. split.
    + unfold admits in Ha. apply andb_true_iff in Ha as [Hp _].
      apply negb_true_iff, bool_decide_eq_false_1 in Hp. exact Hp.
    + rewrite dispatch_admits by exact Ha. rewrite app_tokens. cbn.
      eexists. rewrite world_at_test_tokens. apply insert_insert_eq.
Qed.

End Store.

(** X1.  Requests never touch the bucket of another client: over any run
    in which no request charged to [ip] occurs (every request is from
    another address or to the health-check path), the entry of [ip] in the
    dictionary is the same after as before. *)
Theorem other_clients_untouched (clock : nat -> Q) (self : t) (handler : Handler)
  (ip : string) (requests : list Request) (w : World) :
  Forall (fun r => client_host r <> ip \/ url_path r = "/health") requests ->
  tokens (serve clock self (app handler) requests w).2 !! ip = tokens w !! ip.
Proof.
  intros HF. revert w.
  induction HF as [|request rest Hr _ IH]; intros w; [reflexivity|].
  rewrite RateLimitBurst.serve_cons_world, IH.
  destruct (dispatch_tokens clock self handler request w)
    as [[_ ->] | [Hp [b ->]]]; [reflexivity|].
  apply lookup_insert_ne. destruct Hr as [Hne | Hh]; congruence.
Qed.

Lemma other_clients_untouched_witness :
  tokens (serve Samples.ten_later (Samples.limiter 2) (app Samples.answering)
            [mkRequest "POST" "/api/chat" "10.0.0.2"; Samples.health;
             mkRequest "GET" "/api/chat" "10.0.0.3"]
            Samples.spent).2 !! "10.0.0.1"
  = tokens Samples.spent !! "10.0.0.1".
Proof.
  apply (other_clients_untouched Samples.ten_later (Samples.limiter 2)
           Samples.answering "10.0.0.1").
  repeat constructor; cbn; auto; left; discriminate.
Defined.

(** X2.  Buckets are never removed, and are created only for clients
    whose requests are evaluated: after any run, every address that had a
    bucket still has one, and every address that has one either had it
    before or sent a request that was not to the health-check path. *)
Theorem buckets_only_grow (clock : nat -> Q) (self : t) (handler : Handler)
  (requests : list Request) (w : World) (ip : string) :
  (is_Some (tokens w !! ip) ->
   is_Some (tokens (serve clock self (app handler) requests w).2 !! ip))
  /\ (is_Some (tokens (serve clock self (app handler) requests w).2 !! ip) ->
      is_Some (tokens w !! ip)
      \/ Exists (fun r => client_host r = ip /\ url_path r <> "/health") requests).
Proof.
  revert w. induction requests as [|request rest IH]; intros w.
  - cbn. auto.
  - rewrite RateLimitBurst.serve_cons_world.
    destruct (IH (dispatch clock self request (app handler) w).2) as [IH1 IH2].
    destruct (dispatch_tokens clock self handler request w)
      as [[_ Heq] | [Hp [b Heq]]]; rewrite Heq in IH1, IH2.
    + split; [exact IH1|]. intros H. destruct (IH2 H) as [H'|H']; auto.
    + split.
      * intros H. apply IH1. rewrite lookup_insert. case_decide; [eauto|exact H].
      * intros H. destruct (IH2 H) as [H'|H']; [|auto].
        rewrite lookup_insert in H'. case_decide as Hc; [|auto].
        right. apply Exists_cons_hd. auto.
Qed.

End RateLimitStore.

(** ** What an admitted request costs *)

Module RateLimitRuns.
Import RateLimitMiddleware RateLimitSteps RateLimitInvariant RateLimitStore.

Lemma admit_served (clock : nat -> Q) (self : t) (handler : Handler)
  (request : Request) (w : World) :
  admits clock self request w = true ->
  served (dispatch clock self request (app handler) w).2
  = (served w ++ [request])%list.
Proof.
  intros Ha. rewrite dispatch_admits by exact Ha.
  rewrite app_served. cbn. rewrite world_at_test_served. reflexivity.
Qed.

Lemma admit_tokens (clock : nat -> Q) (self : t) (handler : Handler)
  (request : Request) (w : World) :
  admits clock self request w = true ->
  tokens (dispatch clock self request (app handler) w).2 !! client_host request
  = Some ((new_tokens_at clock self (client_host request) w - 1)%Q,
          now_read clock (client_host request) w).
Proof.
  intros Ha. rewrite dispatch_admits by exact Ha.
  rewrite app_tokens. cbn. apply lookup_insert_eq.
Qed.

(** X3.  An admitted request is handed to the application once and gets
    back exactly what the application produced, a response or an
    exception; the bucket is charged one token before the call, and the
    charge stays when the application raises. *)
Theorem admitted_is_charged (clock : nat -> Q) (self : t) (handler : Handler)
  (request : Request) (w : World) :
  admits clock self request w = true ->
  let ip := client_host request in
  let result := dispatch clock self request (app handler) w in
  result.1 = (handler request (env (world_at_test clock self ip w))).1
  /\ served result.2 = (served w ++ [request])%list
  /\ tokens result.2 !! ip
     = Some ((new_tokens_at clock self ip w - 1)%Q, now_read clock ip w).
Proof.
  intros Ha ip result. unfold result, ip.
  rewrite dispatch_admits by exact Ha.
  split; [|split].
  - unfold app. cbn. destruct (handler request _); reflexivity.
  - rewrite app_served. cbn. rewrite world_at_test_served. reflexivity.
  - rewrite app_tokens. cbn. apply lookup_insert_eq.
Qed.

Lemma admitted_is_charged_witness :
  let ip := client_host Samples.chat in
  let result := dispatch (stopped 0) (Samples.limiter 2) Samples.chat
                  (app Samples.failing) Samples.fresh in
  result.1 = (Samples.failing Samples.chat
                (env (world_at_test (stopped 0) (Samples.limiter 2) ip
                        Samples.fresh))).1
  /\ served result.2 = (served Samples.fresh ++ [Samples.chat])%list
  /\ tokens result.2 !! ip
     = Some ((new_tokens_at (stopped 0) (Samples.limiter 2) ip Samples.fresh - 1)%Q,
             now_read (stopped 0) ip Samples.fresh).
Proof.
  apply (admitted_is_charged (stopped 0) (Samples.limiter 2) Samples.failing
           Samples.chat Samples.fresh).
  vm_compute. reflexivity.
Defined.

Lemma py_min_above (a b : Q) : (a <= b)%Q -> py_min a b = a.
Proof.
  intros H. unfold py_min. destruct (Qlt_bool b a) eqn:E; [|reflexivity].
  apply Qlt_bool_true in E. exfalso. exact (Qlt_not_le _ _ E H).
Qed.

End RateLimitRuns.

(** ** A clock that never goes back *)

Module RateLimitMonotone.
Import RateLimitMiddleware RateLimitSteps RateLimitInvariant RateLimitStore.
Import RateLimitRuns Accounting.

Section Monotone.
Variable clock : nat -> Q.
Variable self : t.
Variable handler : Handler.
Hypothesis clock_nondecreasing : nondecreasing clock.
Hypothesis handler_advancing : advancing handler.

Lemma world_at_test_ticks (ip : string) (w : World) :
  (S (ticks (env w)) <= ticks (env (world_at_test clock self ip w)))%nat.
Proof. unfold world_at_test. destruct (tokens w !! ip); cbn; lia. Qed.

(** The reading taken as [now] is the last one before the test. *)
Lemma now_read_index (ip : string) (w : World) :
  exists k, now_read clock ip w = clock k
            /\ S k = ticks (env (world_at_test clock self ip w)).
Proof.
  unfold now_read, world_at_test.
  destruct (tokens w !! ip); eexists; split; reflexivity.
Qed.

Lemma app_ticks (request : Request) (w : World) :
  (ticks (env w) <= ticks (env (app handler request w).2))%nat.
Proof.
  unfold app. pose proof (handler_advancing request (env w)) as H.
  destruct (handler request (env w)). exact H.
Qed.

Lemma world_at_test_past (ip : string) (w : World) :
  stamps_past clock w -> stamps_past clock (world_at_test clock self ip w).
Proof.
  intros Hp ip' tk lr j Hlk Hj.
  pose proof (world_at_test_ticks ip w) as Ht.
  rewrite world_at_test_tokens, lookup_insert in Hlk.
  case_decide as Hc.
  - unfold bucket_read in Hlk.
    destruct (tokens w !! ip) as [b|] eqn:E.
    + injection Hlk as ->. apply (Hp ip tk lr j E). lia.
    + injection Hlk as <- <-. apply clock_nondecreasing. lia.
  - apply (Hp ip' tk lr j Hlk). lia.
Qed.

Lemma dispatch_past (request : Request) (w : World) :
  stamps_past clock w ->
  stamps_past clock (dispatch clock self request (app handler) w).2.
Proof.
  intros Hp.
  destruct (three_paths clock self request w) as [Hb | [Hd | Ha]].
  - rewrite dispatch_bypass by exact Hb.
    intros ip tk lr j Hlk Hj. rewrite app_tokens in Hlk.
    pose proof (app_ticks request w). apply (Hp ip tk lr j Hlk). lia.
  - rewrite dispatch_denies by exact Hd. apply world_at_test_past, Hp.
  - rewrite dispatch_admits by exact Ha.
    set (wt := world_at_test clock self (client_host request) w).
    intros ip tk lr j Hlk Hj.
    rewrite app_tokens in Hlk. cbn in Hlk.
    pose proof (app_ticks request
      (set_tokens (<[client_host request :=
                       ((new_tokens_at clock self (client_host request) w - 1)%Q,
                        now_read clock (client_host request) w)]> (tokens wt)) wt))
      as Ht.
    cbn in Ht. fold wt in Hj.
    rewrite lookup_insert in Hlk. case_decide as Hc.
    + injection Hlk as _ <-.
      destruct (now_read_index (client_host request) w) as (k & -> & Hk).
      fold wt in Hk. apply clock_nondecreasing. lia.
    + apply (world_at_test_past (client_host request) w Hp ip tk lr j Hlk).
      fold wt. lia.
Qed.

Lemma serve_past (requests : list Request) (w : World) :
  stamps_past clock w ->
  stamps_past clock (serve clock self (app handler) requests w).2.
Proof.
  revert w. induction requests as [|request rest IH]; intros w Hp; [exact Hp|].
  rewrite RateLimitBurst.serve_cons_world. apply IH, dispatch_past, Hp.
Qed.

(** No evaluation sees time run backwards. *)
Lemma time_passed_nonneg (ip : string) (w : World) :
  stamps_past clock w -> (0 <= time_passed_at clock self ip w)%Q.
Proof.
  intros Hp. unfold time_passed_at, now_read, bucket_read.
  destruct (tokens w !! ip) as [[tk lr]|] eqn:E; cbn.
  - pose proof (Hp ip tk lr (ticks (env w)) E (le_n _)). lra.
  - pose proof (clock_nondecreasing (ticks (env w)) (S (ticks (env w)))
                  (Nat.le_succ_diag_r _)). lra.
Qed.

(** One request does not move the stored time of a bucket back. *)
Lemma dispatch_last_refill (request : Request) (w : World) (ip : string)
  (tk lr : Q) :
  stamps_past clock w ->
  tokens w !! ip = Some (tk, lr) ->
  exists tk' lr',
    tokens (dispatch clock self request (app handler) w).2 !! ip = Some (tk', lr')
    /\ (lr <= lr')%Q.
Proof.
  intros Hp Hlk.
  destruct (three_paths clock self request w) as [Hb | [Hd | Ha]].
  - rewrite dispatch_bypass by exact Hb. rewrite app_tokens.
    exists tk, lr. split; [exact Hlk | apply Qle_refl].
  - rewrite dispatch_denies by exact Hd. cbn.
    exists tk, lr. split; [|apply Qle_refl].
    rewrite world_at_test_tokens, lookup_insert. case_decide as Hc; [|exact Hlk].
    unfold bucket_read. rewrite Hc, Hlk. reflexivity.
  - rewrite dispatch_admits by exact Ha. rewrite app_tokens. cbn.
    rewrite lookup_insert. case_decide as Hc.
    + eexists _, _. split; [reflexivity|].
      unfold now_read. rewrite Hc, Hlk.
      apply (Hp ip tk lr _ Hlk). lia.
    + exists tk, lr. split; [|apply Qle_refl].
      rewrite world_at_test_tokens, lookup_insert_ne by exact Hc. exact Hlk.
Qed.

End Monotone.

(** X7.  When the clock never goes back and the application does not
    rewind it, the code computes what the design document writes: at every
    evaluation after any run, the elapsed time [now - last_refill] is not
    negative, so it equals the document's clamped elapsed time, and the
    refilled count equals the document's [refilledTokens]. *)
Theorem agrees_with_design_on_monotone_clock (clock : nat -> Q) (self : t)
  (handler : Handler) (requests : list Request) (w0 : World) (ip : string) :
  nondecreasing clock ->
  advancing handler ->
  stamps_past clock w0 ->
  let w := (serve clock self (app handler) requests w0).2 in
  let state := bucket_read clock self ip w in
  let now := now_read clock ip w in
  (0 <= time_passed_at clock self ip w)%Q
  /\ (time_passed_at clock self ip w == Design.elapsed now (snd state))%Q
  /\ (new_tokens_at clock self ip w
      == Design.refilledTokens (requests_per_minute self) (refill_rate self)
           state now)%Q.
Proof.
  intros Hclock Hhandler Hp0 w state now.
  assert (Hp : stamps_past clock w)
    by (apply serve_past; assumption).
  pose proof (time_passed_nonneg clock self Hclock ip w Hp) as Hnn.
  assert (He : (time_passed_at clock self ip w == Design.elapsed now (snd state))%Q).
  { unfold Design.elapsed. rewrite Q.max_r; [reflexivity | exact Hnn]. }
  split; [exact Hnn|]. split; [exact He|].
  unfold new_tokens_at, Design.refilledTokens.
  rewrite py_min_Qmin. fold state. rewrite He. reflexivity.
Qed.

Lemma agrees_with_design_on_monotone_clock_witness :
  let w := (serve Samples.seconds (Samples.limiter 2) (app Samples.answering)
              [Samples.chat; Samples.chat; Samples.chat] Samples.fresh).2 in
  let state := bucket_read Samples.seconds (Samples.limiter 2) "10.0.0.1" w in
  let now := now_read Samples.seconds "10.0.0.1" w in
  (0 <= time_passed_at Samples.seconds (Samples.limiter 2) "10.0.0.1" w)%Q
  /\ (time_passed_at Samples.seconds (Samples.limiter 2) "10.0.0.1" w
      == Design.elapsed now (snd state))%Q
  /\ (new_tokens_at Samples.seconds (Samples.limiter 2) "10.0.0.1" w
      == Design.refilledTokens (requests_per_minute (Samples.limiter 2))
           (refill_rate (Samples.limiter 2)) state now)%Q.
Proof.
  apply (agrees_with_design_on_monotone_clock Samples.seconds
           (Samples.limiter 2) Samples.answering
           [Samples.chat; Samples.chat; Samples.chat] Samples.fresh "10.0.0.1").
  - intros i j Hij. unfold Samples.seconds. rewrite <- Zle_Qle. lia.
  - intros request e. cbn. lia.
  - intros ip tk lr j Hlk. cbn in Hlk. rewrite lookup_empty in Hlk. discriminate.
Defined.

(** X8.  When the clock never goes back and the application does not
    rewind it, the stored time of last refill of a client never decreases
    over a run. *)
Theorem last_refill_nondecreasing (clock : nat -> Q) (self : t)
  (handler : Handler) (requests : list Request) (w : World) (ip : string)
  (tk lr : Q) :
  nondecreasing clock ->
  advancing handler ->
  stamps_past clock w ->
  tokens w !! ip = Some (tk, lr) ->
  exists tk' lr',
    tokens (serve clock self (app handler) requests w).2 !! ip = Some (tk', lr')
    /\ (lr <= lr')%Q.
Proof.
  intros Hclock Hhandler. revert w tk lr.
  induction requests as [|request rest IH]; intros w tk lr Hp Hlk.
  - exists tk, lr. split; [exact Hlk | apply Qle_refl].
  - rewrite RateLimitBurst.serve_cons_world.
    destruct (dispatch_last_refill clock self handler request w ip tk lr Hp Hlk)
      as (tk1 & lr1 & Hlk1 & Hle1).
    destruct (IH _ tk1 lr1
                (dispatch_past clock self handler Hclock Hhandler request w Hp)
                Hlk1) as (tk' & lr' & Hlk' & Hle').
    exists tk', lr'. split; [exact Hlk' | lra].
Qed.

Lemma last_refill_nondecreasing_witness :
  exists tk' lr',
    tokens (serve Samples.seconds (Samples.limiter 2) (app Samples.answering)
              [Samples.chat; Samples.health; Samples.chat]
              (serve Samples.seconds (Samples.limiter 2) (app Samples.answering)
                 [Samples.chat] Samples.fresh).2).2 !! "10.0.0.1"
    = Some (tk', lr')
    /\ (1 <= lr')%Q.
Proof.
  apply (last_refill_nondecreasing Samples.seconds (Samples.limiter 2)
           Samples.answering [Samples.chat; Samples.health; Samples.chat]
           (serve Samples.seconds (Samples.limiter 2) (app Samples.answering)
              [Samples.chat] Samples.fresh).2 "10.0.0.1" 1%Q 1%Q).
  - intros i j Hij. unfold Samples.seconds. rewrite <- Zle_Qle. lia.
  - intros request e. cbn. lia.
  - apply (serve_past Samples.seconds (Samples.limiter 2)
             Samples.answering).
    + intros i j Hij. unfold Samples.seconds. rewrite <- Zle_Qle. lia.
    + intros request e. cbn. lia.
    + intros ip tk lr j Hlk. cbn in Hlk. rewrite lookup_empty in Hlk.
      discriminate.
  - vm_compute. reflexivity.
Defined.

End RateLimitMonotone.

(** ** The logging wrapper on the way back *)

Module LoggingSuccess.
Import RequestLoggingMiddleware.

(** X9.  When what lies below returns a response, the wrapper returns it
    with the same status and the same content; the headers are the same
    except for [X-Process-Time], which is set to the time elapsed between
    the two readings (replacing any value it had).  One response record
    with that status and time is logged, and nothing else changes. *)
Theorem success_is_transparent (clock : nat -> Q) (request : Request)
  (call_next : Request -> M Response) (w w1 : World) (response : Response) :
  call_next request (world_at_call request w) = (Returned response, w1) ->
  let result := dispatch clock request call_next w in
  let process_time := (clock (ticks (env w1)) - clock (ticks (env w)))%Q in
  exists r : Response,
    result.1 = Returned r
    /\ status_code r = status_code response
    /\ content r = content response
    /\ headers r !! "X-Process-Time" = Some (StrOf process_time)
    /\ (forall h, h <> "X-Process-Time" ->
                  headers r !! h = headers response !! h)
    /\ logs (env result.2)
       = (logs (env w1)
          ++ [InfoResponse (method request) (url_path request)
                (status_code response) process_time])%list
    /\ tokens result.2 = tokens w1
    /\ served result.2 = served w1.
Proof.
  intros Hcall result process_time. unfold result.
  rewrite LoggingFacts.dispatch_unfold, Hcall. cbn.
  eexists. split; [reflexivity|]. cbn.
  repeat split; try reflexivity.
  - apply lookup_insert_eq.
  - intros h Hh. apply lookup_insert_ne. congruence.
Qed.

Lemma success_is_transparent_witness :
  let w1 := (app Samples.answering Samples.chat
               (world_at_call Samples.chat Samples.fresh)).2 in
  let result := dispatch (readings [0; 3]%Q) Samples.chat
                  (app Samples.answering) Samples.fresh in
  let process_time := (readings [0; 3]%Q (ticks (env w1))
                       - readings [0; 3]%Q (ticks (env Samples.fresh)))%Q in
  exists r : Response,
    result.1 = Returned r
    /\ status_code r = status_code Samples.ok
    /\ content r = content Samples.ok
    /\ headers r !! "X-Process-Time" = Some (StrOf process_time)
    /\ (forall h, h <> "X-Process-Time" ->
                  headers r !! h = headers Samples.ok !! h)
    /\ logs (env result.2)
       = (logs (env w1)
          ++ [InfoResponse (method Samples.chat) (url_path Samples.chat)
                (status_code Samples.ok) process_time])%list
    /\ tokens result.2 = tokens w1
    /\ served result.2 = served w1.
Proof.
  apply (success_is_transparent (readings [0; 3]%Q) Samples.chat
           (app Samples.answering) Samples.fresh
           (app Samples.answering Samples.chat
              (world_at_call Samples.chat Samples.fresh)).2 Samples.ok).
  reflexivity.
Defined.



End LoggingSuccess.

(** ** main.py: clients from the environment *)

Module MainClients.
Import Main.

Lemma not_set_false (v : option string) :
  not_set v = false <-> exists s, v = Some s /\ s <> "".
Proof.
  destruct v as [s|]; cbn.
  - rewrite bool_decide_eq_false. split.
    + intros H. exists s. auto.
    + intros (s' & [= <-] & H). exact H.
  - split; [discriminate | intros (s & H & _); discriminate].
Qed.

(** X11.  [get_search_client] returns a client exactly when both the
    endpoint and the API key are set in the environment and not empty; the
    client then carries those two values, and as index name the value of
    [AZURE_SEARCH_INDEX_NAME], or ["document-chunks"] when that variable is
    not set (an empty value is kept as it is).  Otherwise it raises the
    one [ValueError]. *)
Theorem search_client_from_environment (environ : gmap string string) :
  (forall c : SearchClient,
     get_search_client environ = Returned c
     <-> (environ !! "AZURE_SEARCH_ENDPOINT" = Some (endpoint c)
          /\ endpoint c <> ""
          /\ environ !! "AZURE_SEARCH_API_KEY" = Some (credential c)
          /\ credential c <> ""
          /\ index_name c
             = default "document-chunks" (environ !! "AZURE_SEARCH_INDEX_NAME")))
  /\ (forall e : exn,
        get_search_client environ = Raised e ->
        e = ValueError "Missing Azure Search configuration"
        /\ (not_set (environ !! "AZURE_SEARCH_ENDPOINT") = true
            \/ not_set (environ !! "AZURE_SEARCH_API_KEY") = true)).
Proof.
  unfold get_search_client, getenv, getenv_or. split.
  - intros c.
    destruct (not_set (environ !! "AZURE_SEARCH_ENDPOINT")) eqn:He;
      destruct (not_set (environ !! "AZURE_SEARCH_API_KEY")) eqn:Hk; cbn.
    1-3: split; [discriminate|]; intros (H1 & H2 & H3 & H4 & _).
    + rewrite H1 in He. cbn in He. apply bool_decide_eq_true_1 in He. contradiction.
    + rewrite H1 in He. cbn in He. apply bool_decide_eq_true_1 in He. contradiction.
    + rewrite H3 in Hk. cbn in Hk. apply bool_decide_eq_true_1 in Hk. contradiction.
    + apply not_set_false in He as (e & He & Hne).
      apply not_set_false in Hk as (k & Hk & Hnk).
      rewrite He, Hk. cbn. split.
      * intros [= <-]. cbn. auto.
      * intros (H1 & _ & H3 & _ & H5). destruct c as [ce ci ck]. cbn in *.
        congruence.
  - intros e.
    destruct (not_set (environ !! "AZURE_SEARCH_ENDPOINT")) eqn:He;
      destruct (not_set (environ !! "AZURE_SEARCH_API_KEY")) eqn:Hk; cbn;
      try discriminate; intros [= <-]; auto.
Qed.

(** X12.  [get_openai_client] returns a client exactly when both the
    endpoint and the API key are set and not empty; the client carries
    them and the fixed API version.  Otherwise it raises the one
    [ValueError]. *)
Theorem openai_client_from_environment (environ : gmap string string) :
  (forall c : AzureOpenAI,
     get_openai_client environ = Returned c
     <-> (environ !! "AZURE_OPENAI_ENDPOINT" = Some (azure_endpoint c)
          /\ azure_endpoint c <> ""
          /\ environ !! "AZURE_OPENAI_API_KEY" = Some (api_key c)
          /\ api_key c <> ""
          /\ api_version c = "2023-05-15"))
  /\ (forall e : exn,
        get_openai_client environ = Raised e ->
        e = ValueError "Missing OpenAI configuration"
        /\ (not_set (environ !! "AZURE_OPENAI_ENDPOINT") = true
            \/ not_set (environ !! "AZURE_OPENAI_API_KEY") = true)).
Proof.
  unfold get_openai_client, getenv. split.
  - intros c.
    destruct (not_set (environ !! "AZURE_OPENAI_ENDPOINT")) eqn:He;
      destruct (not_set (environ !! "AZURE_OPENAI_API_KEY")) eqn:Hk; cbn.
    1-3: split; [discriminate|]; intros (H1 & H2 & H3 & H4 & _).
    + rewrite H1 in He. cbn in He. apply bool_decide_eq_true_1 in He. contradiction.
    + rewrite H1 in He. cbn in He. apply bool_decide_eq_true_1 in He. contradiction.
    + rewrite H3 in Hk. cbn in Hk. apply bool_decide_eq_true_1 in Hk. contradiction.
    + apply not_set_false in He as (e & He & Hne).
      apply not_set_false in Hk as (k & Hk & Hnk).
      rewrite He, Hk. cbn. split.
      * intros [= <-]. cbn. auto.
      * intros (H1 & _ & H3 & _ & H5). destruct c as [ce ck cv]. cbn in *.
        congruence.
  - intros e.
    destruct (not_set (environ !! "AZURE_OPENAI_ENDPOINT")) eqn:He;
      destruct (not_set (environ !! "AZURE_OPENAI_API_KEY")) eqn:Hk; cbn;
      try discriminate; intros [= <-]; auto.
Qed.

End MainClients.

(** ** main.py: the search *)

Module MainSearch.
Import Main.

Lemma collect_without_id (results : list (gmap string value)) (failure : option exn) :
  Exists (fun r => r !! "id" = None) results ->
  collect results failure = Raised (KeyError "id").
Proof.
  induction results as [|result rest IH]; intros HE.
  - inversion HE.
  - cbn. unfold document_of.
    destruct (result !! "id") as [id|] eqn:E; [|reflexivity].
    apply Exists_cons in HE as [HE | HE]; [congruence|].
    rewrite (IH HE). reflexivity.
Qed.

Lemma collect_with_ids (results : list (gmap string value)) (failure : option exn) :
  Forall (fun r => is_Some (r !! "id")) results ->
  match failure with
  | None => exists documents,
      collect results None = Returned documents
      /\ Forall2 (fun r d => document_of r = Returned d) results documents
  | Some e => collect results (Some e) = Raised e
  end.
Proof.
  intros HF. induction HF as [|result rest [id Hid] _ IH].
  - destruct failure; [reflexivity|]. exists []. split; [reflexivity | constructor].
  - destruct failure as [e|]; cbn; unfold document_of; rewrite Hid.
    + rewrite IH. reflexivity.
    + destruct IH as (documents & -> & HF2). eexists. split; [reflexivity|].
      constructor; [|exact HF2]. unfold document_of. rewrite Hid. reflexivity.
Qed.

Lemma collect_raised (results : list (gmap string value)) (failure : option exn)
  (e : exn) :
  collect results failure = Raised e ->
  e = KeyError "id" \/ failure = Some e.
Proof.
  induction results as [|result rest IH]; cbn.
  - destruct failure; [intros [= ->]; auto | discriminate].
  - unfold document_of. destruct (result !! "id").
    + destruct (collect rest failure); [discriminate|].
      intros [= <-]. apply IH. reflexivity.
    + intros [= <-]. auto.
Qed.

(** X13.  One result without an ["id"] costs the whole answer: whatever
    the other results are and however many came before it,
    [perform_search] returns no documents and logs the [KeyError]. *)
Theorem result_without_id_discards_all (query : string)
  (search : string -> SearchResults) :
  Exists (fun r => r !! "id" = None) (items (search query)) ->
  perform_search query search = (Returned [], [ErrorInSearch (KeyError "id")]).
Proof.
  intros HE. unfold perform_search.
  rewrite (collect_without_id _ _ HE). reflexivity.
Qed.

Lemma result_without_id_discards_all_witness :
  perform_search "bucket" MainSamples.search_malformed
  = (Returned [], [ErrorInSearch (KeyError "id")]).
Proof.
  apply (result_without_id_discards_all "bucket" MainSamples.search_malformed).
  apply Exists_cons_tl, Exists_cons_hd. reflexivity.
Defined.

(** X14.  When every result has an ["id"] and the iteration does not
    fail, [perform_search] returns one document per result, in the order
    of the results, each built from its result (missing fields replaced by
    the defaults), and logs nothing. *)
Theorem search_keeps_every_result (query : string)
  (search : string -> SearchResults) :
  Forall (fun r => is_Some (r !! "id")) (items (search query)) ->
  failure (search query) = None ->
  exists documents,
    perform_search query search = (Returned documents, [])
    /\ Forall2 (fun r d =>
                  r !! "id" = Some (doc_id d)
                  /\ doc_content d = default (VStr "") (r !! "content")
                  /\ doc_title d = default (VStr "") (r !! "title")
                  /\ doc_filename d = default (VStr "") (r !! "filename")
                  /\ doc_score d = default (VNum 0) (r !! "@search.score"))
               (items (search query)) documents.
Proof.
  intros HF Hnone. unfold perform_search.
  pose proof (collect_with_ids _ (failure (search query)) HF) as H.
  rewrite Hnone in *. destruct H as (documents & -> & HF2).
  exists documents. split; [reflexivity|].
  eapply Forall2_impl; [exact HF2|].
  intros r d. unfold document_of.
  destruct (r !! "id"); [|discriminate]. intros [= <-]. cbn. auto.
Qed.

Lemma search_keeps_every_result_witness :
  exists documents,
    perform_search "bucket" MainSamples.search_two = (Returned documents, [])
    /\ Forall2 (fun r d =>
                  r !! "id" = Some (doc_id d)
                  /\ doc_content d = default (VStr "") (r !! "content")
                  /\ doc_title d = default (VStr "") (r !! "title")
                  /\ doc_filename d = default (VStr "") (r !! "filename")
                  /\ doc_score d = default (VNum 0) (r !! "@search.score"))
               (items (MainSamples.search_two "bucket")) documents.
Proof.
  apply (search_keeps_every_result "bucket" MainSamples.search_two).
  - repeat constructor; eexists; vm_compute; reflexivity.
  - reflexivity.
Defined.

(** X15.  [perform_search] lets no failure through that derives from
    [Exception]: what it raises, if anything, is the iterator's own
    failure and does not derive from [Exception].  When the iterator fails
    with one that does, after any number of well-formed results, the
    documents collected so far are dropped: the result is the empty list
    and one error line. *)
Theorem search_absorbs_failures (query : string)
  (search : string -> SearchResults) :
  (forall e, (perform_search query search).1 = Raised e ->
             derives_Exception e = false /\ failure (search query) = Some e)
  /\ (forall e, failure (search query) = Some e ->
                derives_Exception e = true ->
                Forall (fun r => is_Some (r !! "id")) (items (search query)) ->
                perform_search query search = (Returned [], [ErrorInSearch e])).
Proof.
  unfold perform_search. split.
  - intros e.
    destruct (collect (items (search query)) (failure (search query)))
      as [documents|e'] eqn:E; [discriminate|].
    destruct (derives_Exception e') eqn:D; [discriminate|].
    cbn. intros [= <-]. split; [exact D|].
    destruct (collect_raised _ _ _ E) as [-> | H]; [discriminate | exact H].
  - intros e Hf He HF.
    pose proof (collect_with_ids _ (failure (search query)) HF) as H.
    rewrite Hf in *. rewrite H, He. reflexivity.
Qed.

End MainSearch.

(** ** main.py: the chat endpoint *)

Module MainChat.
Import Main.

Section Endpoint.
Variable system_prompt : string.
Variable str_num : Q -> string.
Variable environ : gmap string string.
Variable search : string -> SearchResults.
Variable create : string -> list Message -> Outcome (list value).
Variables t_id t_stamp : Q.

(** The log lines written once the search has returned. *)
Lemma try_unfold (request : ChatRequest) :
  message request <> "" ->
  chat_completion_try system_prompt str_num environ request search create
    t_id t_stamp
  = match perform_search (message request) search with
    | (Raised e, l1) => (Fail (Py e), l1)
    | (Returned documents, l1) =>
        let l2 :=
          (l1 ++ [FoundDocuments (length documents) (message request)]
              ++ map (fun doc => DocumentLine
                                   (py_or (doc_title doc) (doc_filename doc))
                                   (doc_score doc)) documents)%list in
        match create (getenv_or environ "AZURE_OPENAI_COMPLETION_DEPLOYMENT"
                        "gpt-4o-mini")
                     (build_messages system_prompt str_num request documents) with
        | Raised e => (Fail (Py e), l2)
        | Returned choices =>
            (Ok {| reply_id := str_int (py_int (t_id * 1000));
                   reply_type := "ai";
                   reply_content :=
                     hd (VStr "I'm sorry, I couldn't generate a response.") choices;
                   reply_timestamp := t_stamp;
                   relevantDocuments :=
                     map (relevant_document str_num) documents |}, l2)
        end
    end.
Proof.
  intros Hm. unfold chat_completion_try.
  rewrite bool_decide_eq_false_2 by exact Hm.
  destruct (perform_search (message request) search) as [[documents|e] l1];
    [|reflexivity].
  cbv zeta. destruct (create _ _) as [[|c choices]|e]; reflexivity.
Qed.

End Endpoint.

Lemma empty_message_is_500_aux (system_prompt : string) (str_num : Q -> string)
  (environ : gmap string string) (request : ChatRequest)
  (search : string -> SearchResults)
  (create : string -> list Message -> Outcome (list value)) (t_id t_stamp : Q) :
  message request = "" ->
  exists r l,
    chat_completion system_prompt str_num environ request search create
      t_id t_stamp = (Fail r, l).
Proof.
  intros Hm. unfold chat_completion, chat_completion_try.
  rewrite bool_decide_eq_true_2 by exact Hm. cbn. eauto.
Qed.

(** X16.  A request with an empty message never gets the status 400 the
    code raises for it: the endpoint's own handler catches that exception
    and raises status 500 with the 400 as its cause, after logging it.
    Neither the search nor the model is consulted. *)
Theorem empty_message_becomes_500 (system_prompt : string) (str_num : Q -> string)
  (environ : gmap string string) (request : ChatRequest)
  (search : string -> SearchResults)
  (create : string -> list Message -> Outcome (list value)) (t_id t_stamp : Q) :
  message request = "" ->
  chat_completion system_prompt str_num environ request search create t_id t_stamp
  = (Fail (HTTPException 500
             (ErrorProcessingChat
                (HTTPException 400 (Plain "Message is required")))),
     [ErrorChat (HTTPException 400 (Plain "Message is required"))]).
Proof.
  intros Hm. unfold chat_completion, chat_completion_try.
  rewrite bool_decide_eq_true_2 by exact Hm. reflexivity.
Qed.

Lemma empty_message_becomes_500_witness :
  chat_completion MainSamples.prompt MainSamples.show ∅ MainSamples.blank
    MainSamples.search_two MainSamples.create_ok 0 0
  = (Fail (HTTPException 500
             (ErrorProcessingChat
                (HTTPException 400 (Plain "Message is required")))),
     [ErrorChat (HTTPException 400 (Plain "Message is required"))]).
Proof.
  apply (empty_message_becomes_500 MainSamples.prompt MainSamples.show ∅
           MainSamples.blank MainSamples.search_two MainSamples.create_ok 0 0).
  reflexivity.
Defined.

(** X17.  Whatever goes wrong, the endpoint fails in one of two ways
    only: with status 500 carrying the cause, which derives from
    [Exception] and is the last line logged, or with an exception that
    does not derive from [Exception], passed on as it is.  No other status
    leaves the endpoint as a failure. *)
Theorem chat_failures_are_500 (system_prompt : string) (str_num : Q -> string)
  (environ : gmap string string) (request : ChatRequest)
  (search : string -> SearchResults)
  (create : string -> list Message -> Outcome (list value)) (t_id t_stamp : Q)
  (r : raised) (l : list LogLine) :
  chat_completion system_prompt str_num environ request search create t_id t_stamp
  = (Fail r, l) ->
  (exists cause l0,
     r = HTTPException 500 (ErrorProcessingChat cause)
     /\ is_Exception cause = true
     /\ l = (l0 ++ [ErrorChat cause])%list)
  \/ (exists e, r = Py e /\ derives_Exception e = false).
Proof.
  unfold chat_completion.
  destruct (chat_completion_try system_prompt str_num environ request search
              create t_id t_stamp) as [[response|cause] l0] eqn:E;
    [discriminate|].
  destruct (is_Exception cause) eqn:D.
  - intros [= <- <-]. left. exists cause, l0. auto.
  - intros [= <- <-]. right.
    destruct cause as [status d|e]; [discriminate|]. exists e. auto.
Qed.

Lemma chat_failures_are_500_witness :
  (exists cause l0,
     HTTPException 500 (ErrorProcessingChat (Py Samples.boom))
     = HTTPException 500 (ErrorProcessingChat cause)
     /\ is_Exception cause = true
     /\ (chat_completion MainSamples.prompt MainSamples.show ∅ MainSamples.ask
           MainSamples.search_two MainSamples.create_down 0 0).2
        = (l0 ++ [ErrorChat cause])%list)
  \/ (exists e, HTTPException 500 (ErrorProcessingChat (Py Samples.boom)) = Py e
                /\ derives_Exception e = false).
Proof.
  apply (chat_failures_are_500 MainSamples.prompt MainSamples.show ∅
           MainSamples.ask MainSamples.search_two MainSamples.create_down 0 0).
  vm_compute. reflexivity.
Defined.

(** X18.  A failed search does not fail the chat.  When the search ends
    in a failure that derives from [Exception] (or in a result without an
    id), the endpoint goes on exactly as if the search had found nothing:
    same outcome, same messages sent to the model, same log but for the
    search error logged first. *)
Theorem failed_search_is_an_empty_search (system_prompt : string)
  (str_num : Q -> string) (environ : gmap string string) (request : ChatRequest)
  (search : string -> SearchResults)
  (create : string -> list Message -> Outcome (list value)) (t_id t_stamp : Q)
  (e : exn) :
  perform_search (message request) search = (Returned [], [ErrorInSearch e]) ->
  message request <> "" ->
  chat_completion system_prompt str_num environ request search create t_id t_stamp
  = let found_nothing :=
      chat_completion system_prompt str_num environ request
        (fun _ => {| items := []; failure := None |}) create t_id t_stamp in
    (found_nothing.1, ErrorInSearch e :: found_nothing.2).
Proof.
  intros Hs Hm. unfold chat_completion.
  rewrite !try_unfold by exact Hm. rewrite Hs.
  change (perform_search (message request)
            (fun _ => {| items := []; failure := None |}))
    with (@Returned (list Document) [], @nil LogLine).
  cbv zeta. cbn [length map app].
  destruct (create _ _) as [choices|e']; cbn.
  - reflexivity.
  - destruct (derives_Exception e'); reflexivity.
Qed.

Lemma failed_search_is_an_empty_search_witness :
  chat_completion MainSamples.prompt MainSamples.show ∅ MainSamples.ask
    MainSamples.search_down MainSamples.create_ok 0 0
  = let found_nothing :=
      chat_completion MainSamples.prompt MainSamples.show ∅ MainSamples.ask
        (fun _ => {| items := []; failure := None |}) MainSamples.create_ok 0 0 in
    (found_nothing.1, ErrorInSearch Samples.boom :: found_nothing.2).
Proof.
  apply (failed_search_is_an_empty_search MainSamples.prompt MainSamples.show ∅
           MainSamples.ask MainSamples.search_down MainSamples.create_ok 0 0
           Samples.boom).
  - vm_compute. reflexivity.
  - discriminate.
Defined.

End MainChat.

(** ** main.py: what is sent to the model and what comes back *)

Module MainMessages.
Import Main.

Lemma previous_messages_spec (conversation : list ConversationMessage) :
  let kept :=
    List.filter (fun msg => bool_decide (msg_type msg = "user")
                            || bool_decide (msg_type msg = "ai")) conversation in
  Forall (fun m => role m = "user" \/ role m = "assistant")
         (previous_messages conversation)
  /\ map text (previous_messages conversation) = map msg_content kept
  /\ map role (previous_messages conversation)
     = map (fun msg => if bool_decide (msg_type msg = "user")
                       then "user" else "assistant") kept.
Proof.
  induction conversation as [|msg rest (IH1 & IH2 & IH3)]; cbn.
  - repeat split. constructor.
  - destruct (bool_decide (msg_type msg = "user") || bool_decide (msg_type msg = "ai"))
      eqn:E; cbn.
    + repeat split.
      * constructor; [|exact IH1]. cbn. case_bool_decide; auto.
      * rewrite IH2. reflexivity.
      * rewrite IH3. reflexivity.
    + repeat split; assumption.
Qed.

(** X19.  The array sent to the model always opens with the system
    message, whose text is the prompt followed by the document context,
    and closes with the user's message as the request carries it.  In
    between come the turns of the conversation whose type is ["user"] or
    ["ai"], in their order and with their content, as ["user"] and
    ["assistant"]; turns of any other type are left out. *)
Theorem messages_layout (system_prompt : string) (str_num : Q -> string)
  (request : ChatRequest) (documents : list Document) :
  let kept :=
    List.filter (fun msg => bool_decide (msg_type msg = "user")
                            || bool_decide (msg_type msg = "ai"))
                (conversation request) in
  exists middle : list Message,
    build_messages system_prompt str_num request documents
    = ({| role := "system";
          text := system_prompt ++ document_context str_num documents |}
         :: middle ++ [{| role := "user"; text := message request |}])%list
    /\ Forall (fun m => role m = "user" \/ role m = "assistant") middle
    /\ map text middle = map msg_content kept
    /\ map role middle
       = map (fun msg => if bool_decide (msg_type msg = "user")
                         then "user" else "assistant") kept
    /\ length (build_messages system_prompt str_num request documents)
       = (2 + length kept)%nat.
Proof.
  intros kept. exists (previous_messages (conversation request)).
  destruct (previous_messages_spec (conversation request)) as (H1 & H2 & H3).
  split; [reflexivity|]. split; [exact H1|]. split; [exact H2|].
  split; [exact H3|].
  unfold build_messages. cbn. rewrite length_app. cbn.
  rewrite <- (length_map text), H2, length_map. fold kept. lia.
Qed.

(** X20.  The endpoint returns a response exactly when the message is
    not empty, the search returns (its failures being absorbed) and the
    model call returns.  The reply then is of type ["ai"], its content is
    the first choice, or the apology when there is no choice, and it lists
    one relevant document per document found, in order. *)
Theorem chat_success (system_prompt : string) (str_num : Q -> string)
  (environ : gmap string string) (request : ChatRequest)
  (search : string -> SearchResults)
  (create : string -> list Message -> Outcome (list value)) (t_id t_stamp : Q)
  (response : ChatResponse) (l : list LogLine) :
  chat_completion system_prompt str_num environ request search create t_id t_stamp
  = (Ok response, l)
  <-> (message request <> ""
       /\ exists documents l1 choices,
            perform_search (message request) search = (Returned documents, l1)
            /\ create (getenv_or environ "AZURE_OPENAI_COMPLETION_DEPLOYMENT"
                         "gpt-4o-mini")
                      (build_messages system_prompt str_num request documents)
               = Returned choices
            /\ response
               = {| reply_id := str_int (py_int (t_id * 1000));
                    reply_type := "ai";
                    reply_content :=
                      hd (VStr "I'm sorry, I couldn't generate a response.") choices;
                    reply_timestamp := t_stamp;
                    relevantDocuments := map (relevant_document str_num) documents |}
            /\ l = (l1 ++ [FoundDocuments (length documents) (message request)]
                       ++ map (fun doc => DocumentLine
                                            (py_or (doc_title doc) (doc_filename doc))
                                            (doc_score doc)) documents)%list).
Proof.
  split.
  - intros H. destruct (decide (message request = "")) as [Hm | Hm].
    + destruct (MainChat.empty_message_is_500_aux system_prompt str_num environ
                  request search create t_id t_stamp Hm) as (r & l' & Hr).
      rewrite Hr in H. discriminate.
    + split; [exact Hm|]. revert H. unfold chat_completion.
      rewrite MainChat.try_unfold by exact Hm.
      destruct (perform_search (message request) search) as [[documents|e] l1].
      * cbv zeta. destruct (create _ _) as [choices|e] eqn:Hc.
        -- intros [= <- <-]. exists documents, l1, choices. auto.
        -- cbn. destruct (derives_Exception e); discriminate.
      * cbn. destruct (derives_Exception e); discriminate.
  - intros (Hm & documents & l1 & choices & Hs & Hc & -> & ->).
    unfold chat_completion. rewrite MainChat.try_unfold by exact Hm.
    rewrite Hs. cbv zeta. rewrite Hc. reflexivity.
Qed.

(** X21.  A document without a usable title is shown by its file name:
    when a result has no title, or an empty one, the relevant document
    built from it is named after the result's ["filename"] (the empty
    string if that is missing too); otherwise after its title.  Its url is
    ["#document-"] followed by the id. *)
Theorem untitled_document_named_by_file (str_num : Q -> string)
  (result : gmap string value) (doc : Document) :
  document_of result = Returned doc ->
  (truthy (default (VStr "") (result !! "title")) = false ->
   rd_name (relevant_document str_num doc)
   = default (VStr "") (result !! "filename"))
  /\ (truthy (default (VStr "") (result !! "title")) = true ->
      Some (rd_name (relevant_document str_num doc)) = result !! "title")
  /\ Some (rd_id (relevant_document str_num doc)) = result !! "id"
  /\ rd_url (relevant_document str_num doc)
     = "#document-" ++ py_str str_num (doc_id doc).
Proof.
  unfold document_of. destruct (result !! "id") as [id|]; [|discriminate].
  intros [= <-]. unfold relevant_document, py_or. cbn.
  repeat split.
  - intros ->. reflexivity.
  - intros H. rewrite H.
    destruct (result !! "title"); [reflexivity|]. cbn in H. discriminate.
Qed.

Lemma untitled_document_named_by_file_witness :
  let result : gmap string value :=
    {[ "id" := VStr "b"; "title" := VStr ""; "filename" := VStr "notes.pdf" ]} in
  let doc := {| doc_id := VStr "b"; doc_content := VStr "";
                doc_title := VStr ""; doc_filename := VStr "notes.pdf";
                doc_score := VNum 0 |} in
  (truthy (default (VStr "") (result !! "title")) = false ->
   rd_name (relevant_document MainSamples.show doc)
   = default (VStr "") (result !! "filename"))
  /\ (truthy (default (VStr "") (result !! "title")) = true ->
      Some (rd_name (relevant_document MainSamples.show doc)) = result !! "title")
  /\ Some (rd_id (relevant_document MainSamples.show doc)) = result !! "id"
  /\ rd_url (relevant_document MainSamples.show doc)
     = "#document-" ++ py_str MainSamples.show (doc_id doc).
Proof.
  apply (untitled_document_named_by_file MainSamples.show
           {[ "id" := VStr "b"; "title" := VStr "";
              "filename" := VStr "notes.pdf" ]}).
  vm_compute. reflexivity.
Defined.

End MainMessages.

(** ** Who gets in *)

Module RateLimitLiveness.
Import RateLimitMiddleware RateLimitSteps.

(** X23.  The first request of a client is admitted whenever the
    capacity is at least one, the refill rate is not negative and the
    clock does not step back between the reading taken when the bucket is
    created and the one taken as [now]; the bucket then holds the capacity
    less one. *)
Theorem first_request_admitted (clock : nat -> Q) (self : t) (handler : Handler)
  (request : Request) (w : World) :
  tokens w !! client_host request = None ->
  url_path request <> "/health" ->
  (1 <= requests_per_minute self)%Z ->
  (0 <= refill_rate self)%Q ->
  (clock (ticks (env w)) <= clock (S (ticks (env w))))%Q ->
  let result := dispatch clock self request (app handler) w in
  served result.2 = (served w ++ [request])%list
  /\ tokens result.2 !! client_host request
     = Some ((inject_Z (requests_per_minute self) - 1)%Q,
             clock (S (ticks (env w)))).
Proof.
  intros Hnew Hpath Hcap Hrate Hclock result.
  assert (Hnt : new_tokens_at clock self (client_host request) w
                = inject_Z (requests_per_minute self)).
  { unfold new_tokens_at, time_passed_at, bucket_read, now_read.
    rewrite Hnew. cbn. apply RateLimitRuns.py_min_above.
    assert (H : (0 <= (clock (S (ticks (env w))) - clock (ticks (env w)))
                      * refill_rate self)%Q)
      by (apply Qmult_le_0_compat; lra).
    lra. }
  assert (Ha : admits clock self request w = true).
  { unfold admits. rewrite andb_true_iff, !negb_true_iff. split.
    - apply bool_decide_eq_false_2. exact Hpath.
    - apply Qlt_bool_false. rewrite Hnt.
      rewrite Zle_Qle in Hcap. exact Hcap. }
  unfold result. split.
  - apply RateLimitRuns.admit_served, Ha.
  - rewrite RateLimitRuns.admit_tokens by exact Ha.
    rewrite Hnt. unfold now_read. rewrite Hnew. reflexivity.
Qed.

Lemma first_request_admitted_witness :
  let result := dispatch Samples.seconds (Samples.limiter 2) Samples.chat
                  (app Samples.answering) Samples.fresh in
  served result.2 = (served Samples.fresh ++ [Samples.chat])%list
  /\ tokens result.2 !! client_host Samples.chat
     = Some ((inject_Z (requests_per_minute (Samples.limiter 2)) - 1)%Q,
             Samples.seconds (S (ticks (env Samples.fresh)))).
Proof.
  apply (first_request_admitted Samples.seconds (Samples.limiter 2)
           Samples.answering Samples.chat Samples.fresh).
  - reflexivity.
  - discriminate.
  - cbn. lia.
  - vm_compute. discriminate.
  - vm_compute. discriminate.
Defined.

End RateLimitLiveness.
